(** * Karmen connector for OctoPrint: the browser-side view model

    A shallow embedding of [octoprint_karmen/static/js/karmen.js]
    (the current revision of the view model, the one that carries the
    connection-status handler) and the properties its specification
    states about it.

    - JavaScript strings are [string]; JavaScript numbers are the type
      [number] below (integral doubles, [Infinity] and [NaN]).
    - The attributes of a push message are JavaScript values [jsval];
      an absent attribute reads as [JUndefined].
    - The three Knockout observables and [self.notify] are the fields
      of the record [Self.t]; the handlers are state transformers. *)

From Stdlib Require Import ZArith List String Ascii Bool Lia DecimalString.
From Stdlib Require Import RelationClasses OrdersEx.
Import ListNotations.
Open Scope string_scope.
Open Scope Z_scope.

(* ------------------------------------------------------------------ *)
(** ** JavaScript values *)

(** The numbers that occur in this program: [Num z] is the double whose
    value is the integer [z]. *)
Inductive number : Type :=
| NaN
| Num (z : Z)
| Infinity.

(** A JavaScript value as a decoded JSON scalar.  [JNum z] is an
    integral number; [JUndefined] is what reading a missing attribute
    yields.  Arrays, objects and fractional numbers are not in this
    type: the theorems on the text the handler derives from a status,
    and on its branch by status, are stated for statuses that are
    strings. *)
Inductive jsval : Type :=
| JUndefined
| JNull
| JBool (b : bool)
| JNum (z : Z)
| JStr (s : string).

(** ToBoolean: [undefined], [null], [false], [0] and the empty string
    are falsy. *)
Definition truthy (v : jsval) : bool :=
  match v with
  | JUndefined | JNull => false
  | JBool b => b
  | JNum z => negb (z =? 0)
  | JStr s => negb (String.eqb s EmptyString)
  end.

(** ToString, as a template literal [`${v}`] applies it.  Integral
    numbers print in decimal, which is what JavaScript does below
    10^21 only (from there on it prints an exponent form, which this
    definition does not follow). *)
Definition to_string (v : jsval) : string :=
  match v with
  | JUndefined => "undefined"
  | JNull => "null"
  | JBool true => "true"
  | JBool false => "false"
  | JNum z => NilZero.string_of_int (Z.to_int z)
  | JStr s => s
  end.

(** [v == w] for a string literal [w] that is not a numeric literal
    (ToNumber(w) is NaN), which is the case of the four status
    literals: a string operand is compared as a string; a number or a
    boolean operand is compared with NaN and is never equal; [null] and
    [undefined] equal no string. *)
Definition loose_eq_word (v : jsval) (w : string) : bool :=
  match v with
  | JStr s => String.eqb s w
  | _ => false
  end.

(* ------------------------------------------------------------------ *)
(** ** Strings: split, the two part patterns, Number *)

(** [s.split(sep)] for a one-character separator. *)
Fixpoint split (sep : ascii) (s : string) : list string :=
  match s with
  | EmptyString => [EmptyString]
  | String c r =>
      if Ascii.eqb c sep then EmptyString :: split sep r
      else match split sep r with
           | p :: ps => String c p :: ps
           | [] => [String c EmptyString]
           end
  end.

Definition is_digit (c : ascii) : bool :=
  let n := N_of_ascii c in ((48 <=? n) && (n <=? 57))%N.

Definition is_letter (c : ascii) : bool :=
  let n := N_of_ascii c in
  (((65 <=? n) && (n <=? 90)) || ((97 <=? n) && (n <=? 122)))%N.

Fixpoint all_chars (p : ascii -> bool) (s : string) : bool :=
  match s with
  | EmptyString => true
  | String c r => p c && all_chars p r
  end.

Fixpoint skip_chars (p : ascii -> bool) (s : string) : string :=
  match s with
  | EmptyString => EmptyString
  | String c r => if p c then skip_chars p r else s
  end.

(** [/^\d+$/.test(x)] *)
Definition test_digits (x : string) : bool :=
  match x with
  | EmptyString => false
  | String _ _ => all_chars is_digit x
  end.

(** [/^\d+[A-Za-z]*$/.test(x)]: one digit, the longest run of further
    digits, then letters up to the end. *)
Definition test_digits_letters (x : string) : bool :=
  match x with
  | EmptyString => false
  | String c r => is_digit c && all_chars is_letter (skip_chars is_digit r)
  end.

(** The value of a double that holds the natural number [n], rounded to
    nearest, ties to even, with 53 bits of precision; from 2^1024 on
    the result is [Infinity]. *)
Definition round_to_double (n : Z) : number :=
  if n <? 2 ^ 53 then Num n
  else
    let k := Z.log2 n - 52 in
    let q := Z.shiftr n k in
    let r := Z.land n (Z.ones k) in
    let half := Z.shiftl 1 (k - 1) in
    let q' := if r <? half then q
              else if half <? r then q + 1
              else if Z.even q then q else q + 1 in
    if 2 ^ 1024 <=? Z.shiftl q' k then Infinity else Num (Z.shiftl q' k).

Definition digit_value (c : ascii) : Z := Z.of_N (N_of_ascii c) - 48.

Fixpoint decimal_value (acc : Z) (s : string) : Z :=
  match s with
  | EmptyString => acc
  | String c r => decimal_value (10 * acc + digit_value c) r
  end.

(** [Number(x)] on the strings [versionCompare] passes to it: in the
    numeric mode every part has matched [/^\d+$/] before [map(Number)]
    runs, and the result is the double nearest to the decimal value
    (so two long parts that differ beyond the 53rd bit may convert to
    the same number).  The other numeric literal forms (sign,
    fraction, exponent, radix prefix, white space) never reach this
    call and read as [NaN] here. *)
Definition Number (x : string) : number :=
  if test_digits x then round_to_double (decimal_value 0 x) else NaN.

(** [a == b] and [a > b] on two numbers. *)
Definition num_eq (a b : number) : bool :=
  match a, b with
  | Num x, Num y => x =? y
  | Infinity, Infinity => true
  | _, _ => false
  end.

Definition num_gt (a b : number) : bool :=
  match a, b with
  | Num x, Num y => y <? x
  | Infinity, Num _ => true
  | _, _ => false
  end.

Definition num_lt (a b : number) : bool := num_gt b a.

(** [a > b] on two strings: the order of the code units. *)
Definition str_gt (a b : string) : bool := String.ltb b a.

(* ------------------------------------------------------------------ *)
(** ** versionCompare *)

Record Options : Type := mkOptions {
  lexicographical : bool;
  zeroExtend : bool
}.

(** [while (parts.length < other.length) parts.push("0")], run for the
    [k] iterations the loop makes. *)
Fixpoint push_zeros (k : nat) (parts : list string) : list string :=
  match k with
  | O => parts
  | S k' => push_zeros k' (parts ++ ["0"])
  end.

Section Scan.

Context {A : Type}.
Variable eq_js : A -> A -> bool.
Variable gt_js : A -> A -> bool.

(** Reading [parts[i]]: [None] is the [undefined] an index past the end
    yields; it is neither equal to nor smaller than an element. *)
Definition elem_eq (a b : option A) : bool :=
  match a, b with
  | Some x, Some y => eq_js x y
  | None, None => true
  | _, _ => false
  end.

Definition elem_gt (a b : option A) : bool :=
  match a, b with
  | Some x, Some y => gt_js x y
  | _, _ => false
  end.

(** The [for] loop from index [i], with [n] iterations left
    ([n = v1parts.length - i]), followed by the two statements after
    it. *)
Fixpoint scan_from (v1parts v2parts : list A) (n i : nat) : number :=
  match n with
  | O =>
      if negb (Nat.eqb (List.length v1parts) (List.length v2parts)) then Num (-1)
      else Num 0
  | S n' =>
      if Nat.eqb (List.length v2parts) i then Num 1
      else if elem_eq (nth_error v1parts i) (nth_error v2parts i)
           then scan_from v1parts v2parts n' (S i)
      else if elem_gt (nth_error v1parts i) (nth_error v2parts i)
           then Num 1
      else Num (-1)
  end.

Definition scan (v1parts v2parts : list A) : number :=
  scan_from v1parts v2parts (List.length v1parts) 0.

(** The same scan by recursion on the two sequences. *)
Fixpoint scan_rec (l1 l2 : list A) : number :=
  match l1, l2 with
  | [], [] => Num 0
  | [], _ :: _ => Num (-1)
  | _ :: _, [] => Num 1
  | a :: r1, b :: r2 =>
      if eq_js a b then scan_rec r1 r2
      else if gt_js a b then Num 1 else Num (-1)
  end.

(** Every element of the sequence equals itself under [eq_js]. *)
Definition self_equal (l : list A) : Prop :=
  forall a, In a l -> eq_js a a = true.

End Scan.

(** The truth value of [options && options.f]: an absent options
    object reads as a flag that is off. *)
Definition option_flag (options : option Options) (f : Options -> bool)
  : bool :=
  match options with
  | Some o => f o
  | None => false
  end.

(** The conversion of the parts unless the mode is lexicographical,
    and the scan. *)
Definition compare_parts (lexicographical : bool)
  (v1parts v2parts : list string) : number :=
  if negb lexicographical
  then scan num_eq num_gt (map Number v1parts) (map Number v2parts)
  else scan String.eqb str_gt v1parts v2parts.

(** The pattern [isValidPart] tests a part with, by mode. *)
Definition isValidPart (lexicographical : bool) (x : string) : bool :=
  if lexicographical then test_digits_letters x else test_digits x.

Definition versionCompare (v1 v2 : string) (options : option Options)
  : number :=
  let lexicographical := option_flag options lexicographical in
  let zeroExtend := option_flag options zeroExtend in
  let v1parts := split "." v1 in
  let v2parts := split "." v2 in
  if negb (forallb (isValidPart lexicographical) v1parts)
     || negb (forallb (isValidPart lexicographical) v2parts)
  then NaN
  else
    let v1parts :=
      if zeroExtend
      then push_zeros (List.length v2parts - List.length v1parts)%nat v1parts
      else v1parts in
    let v2parts :=
      if zeroExtend
      then push_zeros (List.length v1parts - List.length v2parts)%nat v2parts
      else v2parts in
    compare_parts lexicographical v1parts v2parts.

(** A version string all of whose parts pass the pattern of the mode. *)
Definition valid_version (options : option Options) (v : string) : bool :=
  forallb (isValidPart (option_flag options lexicographical)) (split "." v).

(* ------------------------------------------------------------------ *)
(** ** The view model *)

(** The [data] object of a push message; an attribute the sender left
    out is [JUndefined]. *)
Module Data.
Record t : Type := mk {
  connectionStatus : jsval;
  error : jsval;
  advise : jsval
}.
End Data.

(** The options object handed to [new PNotify]. *)
Record PNotify : Type := mkPNotify {
  text : string;
  title : string;
  type : string;
  delay : Z
}.

(** [self]: the content of the three observables, and [self.notify]
    ([None] until the check assigns it). *)
Module Self.
Record t : Type := mk {
  connectionStatus : string;
  iconTitle : string;
  connectionStatusDescription : string;
  notify : option PNotify
}.

(** Writing an observable, [self.f(x)], and assigning [self.notify]. *)
Definition set_connectionStatus (x : string) (self : t) : t :=
  mk x (iconTitle self) (connectionStatusDescription self) (notify self).

Definition set_iconTitle (x : string) (self : t) : t :=
  mk (connectionStatus self) x (connectionStatusDescription self) (notify self).

Definition set_connectionStatusDescription (x : string) (self : t) : t :=
  mk (connectionStatus self) (iconTitle self) x (notify self).

Definition set_notify (x : option PNotify) (self : t) : t :=
  mk (connectionStatus self) (iconTitle self)
     (connectionStatusDescription self) x.
End Self.

(** Statements on [self] and their sequencing. *)
Definition stmt : Type := Self.t -> Self.t.

Definition skip : stmt := fun self => self.

Definition seq (c1 c2 : stmt) : stmt := fun self => c2 (c1 self).

Notation "c1 ;; c2" := (seq c1 c2) (at level 61, right associativity).

(** The double quote and the line feed, for the markup literals. *)
Definition dq : string := String "034"%char EmptyString.
Definition lf : string := String "010"%char EmptyString.

(** The view model as its constructor leaves it. *)
Definition KarmenViewModel : Self.t :=
  Self.mk "karmen-status-connecting"
          "<span class='text-info'>Loading</span>"
          "Loading and connecting to Karmen cloud."
          None.

(** [v + s] with a string on the right: the concatenation of
    ToString(v) and [s]. *)
Definition js_add_string (v : jsval) (s : string) : jsval :=
  JStr (to_string v ++ s).

(** The local [status_description] of the handler.  It is assigned and
    never read. *)
Definition status_description (data : Data.t) : jsval :=
  if truthy (Data.error data)
  then if truthy (Data.advise data)
       then js_add_string (Data.error data)
              ("<p>" ++ to_string (Data.advise data) ++ "</p>")
       else Data.error data
  else JStr EmptyString.

Definition onDataUpdaterPluginMessage (plugin : string) (data : Data.t)
  : stmt :=
  if negb (String.eqb plugin "karmen") then skip
  else if truthy (Data.connectionStatus data) then
    let status := Data.connectionStatus data in
    Self.set_connectionStatus ("karmen-status-" ++ to_string status) ;;
    Self.set_iconTitle (to_string status) ;;
    let status_description := status_description data in
    if loose_eq_word status "connected" then
      Self.set_iconTitle
        ("<span class=" ++ dq ++ "text-success" ++ dq ++ ">Connected</span>") ;;
      Self.set_connectionStatusDescription
        "Click the icon to go to see your printer in Karmen Cloud."
    else if loose_eq_word status "connecting" then
      Self.set_iconTitle
        ("<span class=" ++ dq ++ "text-warning" ++ dq
         ++ ">Connecting ...</span>") ;;
      Self.set_connectionStatusDescription
        ("Connecting to Karmen servers. "
         ++ (if truthy (Data.error data)
             then "<p>Last error was:</p> <pre>"
                  ++ to_string (Data.error data) ++ "</pre>"
             else EmptyString))
    else if loose_eq_word status "disconnecting" then
      Self.set_iconTitle
        ("<span class=" ++ dq ++ "text-warning" ++ dq
         ++ ">Disconnecting ...</span>") ;;
      Self.set_connectionStatusDescription "Disconnecting from Karmen."
    else if loose_eq_word status "disconnected" then
      if truthy (Data.error data) then
        Self.set_iconTitle
          ("<span class=" ++ dq ++ "text-error" ++ dq
           ++ ">Connection error</span>") ;;
        Self.set_connectionStatusDescription
          ("<p class=" ++ dq ++ "text-error" ++ dq ++ ">"
           ++ to_string (Data.advise data) ++ "</p><p>Error:<pre>"
           ++ to_string (Data.error data) ++ ".</pre></p>")
      else
        Self.set_iconTitle
          ("<span class=" ++ dq ++ "text-warning" ++ dq
           ++ ">Disconnected</span>") ;;
        Self.set_connectionStatusDescription
          ("<p class=" ++ dq ++ "text-error" ++ dq ++ ">"
           ++ to_string (Data.advise data) ++ "</p>")
    else skip
  else skip.

(** The four status literals the handler branches on. *)
Definition recognized (status : jsval) : bool :=
  loose_eq_word status "connected"
  || loose_eq_word status "connecting"
  || loose_eq_word status "disconnecting"
  || loose_eq_word status "disconnected".

(* ------------------------------------------------------------------ *)
(** ** performCheck *)

(** The page: the view model, and the notices [new PNotify] has put on
    screen, oldest first. *)
Record page : Type := mkPage {
  self : Self.t;
  notices : list PNotify
}.

Definition indent : string := "                        ".

(** The template literal of the notice. *)
Definition unsupported_text (version : string) : string :=
  "This version of Karmen Connector is not supported in Octoprint version "
  ++ version ++ "." ++ lf
  ++ indent ++ "Please upgrade to Octoprint 1.8+ or use legacy plugin." ++ lf
  ++ indent ++ "Check plugin settings for details.".

Definition unsupported_notice (version : string) : PNotify :=
  mkPNotify (unsupported_text version) "Karmen Connector" "error" 10000.

(** The continuation of [OctoPrint.system.getInfo()], given the string
    [info.systeminfo["octoprint.version"]]. *)
Definition performCheck (version : string) (p : page) : page :=
  if num_lt (versionCompare version "1.8" None) (Num 0)
  then
    let n := unsupported_notice version in
    mkPage (Self.set_notify (Some n) (self p)) (notices p ++ [n])
  else p.

(** Whether [needle] occurs in [hay]. *)
Fixpoint occurs (needle hay : string) : bool :=
  String.prefix needle hay
  || match hay with
     | EmptyString => false
     | String _ r => occurs needle r
     end.

(* ------------------------------------------------------------------ *)
(** ** The host driving the view model *)

(** The sign of an answer of the comparison, reversed. *)
Definition opposite (r : number) : number :=
  match r with
  | Num z => Num (- z)
  | other => other
  end.

(** A number other than [NaN]. *)
Definition is_number (a : number) : Prop := a <> NaN.

(** The strings the scan runs on in the lexicographical mode: all of
    them. *)
Definition any_string (s : string) : Prop := True.

(** An observable after a statement that either wrote [Some x] into
    it or left it alone. *)
Definition written (w : option string) (old : string) : string :=
  match w with
  | Some x => x
  | None => old
  end.

(** The host hands the push messages to the handler one at a time, in
    the order of their arrival. *)
Definition deliver (messages : list (string * Data.t)) : stmt :=
  fun self =>
    fold_left
      (fun s m => onDataUpdaterPluginMessage (fst m) (snd m) s)
      messages self.

(** The handler as a step of the page: it has no access to the
    notices. *)
Definition push_message (plugin : string) (data : Data.t) (p : page)
  : page :=
  mkPage (onDataUpdaterPluginMessage plugin data (self p)) (notices p).

(** [self.onUserLoggedIn]: every login runs the check, here with the
    version string the host answers. *)
Definition onUserLoggedIn (version : string) (p : page) : page :=
  performCheck version p.

(** [k] logins in a row. *)
Fixpoint logins (k : nat) (version : string) (p : page) : page :=
  match k with
  | O => p
  | S k' => logins k' version (onUserLoggedIn version p)
  end.

(** The sign of an order on integers as the comparison reports it. *)
Definition sign_of (c : comparison) : number :=
  match c with
  | Lt => Num (-1)
  | Eq => Num 0
  | Gt => Num 1
  end.

(** Closes the cases of a decision between an answer of the scan and
    a condition on the first two parts, once the integer tests are
    decided. *)
Ltac decide_notice :=
  try lia;
  let Hd := fresh "Hd" in
  let Hd1 := fresh "Hd" in
  let Hd2 := fresh "Hd" in
  split; intros Hd;
  try reflexivity; try discriminate Hd;
  try (left; reflexivity);
  try (right; split; [f_equal; lia | first [exact I | reflexivity]]);
  try (destruct Hd as [Hd|[Hd1 Hd2]];
       first [discriminate Hd | discriminate Hd2 | inversion Hd1; lia]).

(* ------------------------------------------------------------------ *)
(** ** The scan *)

Section ScanFacts.

Context {A : Type}.
Variable eq_js : A -> A -> bool.
Variable gt_js : A -> A -> bool.

Lemma nth_error_middle (pre : list A) (a : A) (rest : list A) :
  nth_error (pre ++ a :: rest) (List.length pre) = Some a.
Proof.
  induction pre as [|x pre IH]; simpl; [reflexivity | exact IH].
Qed.

(** The loop started at index [i] behind two prefixes of length [i]
    is the recursive scan of what is left. *)
Lemma scan_from_scan_rec (l1 : list A) :
  forall (l2 pre1 pre2 : list A),
    List.length pre1 = List.length pre2 ->
    scan_from eq_js gt_js (pre1 ++ l1) (pre2 ++ l2)
              (List.length l1) (List.length pre1)
    = scan_rec eq_js gt_js l1 l2.
Proof.
  induction l1 as [|a r1 IH]; intros l2 pre1 pre2 Hlen.
  - simpl. rewrite app_nil_r, length_app, Hlen.
    destruct l2 as [|b r2]; simpl.
    + rewrite Nat.add_0_r, Nat.eqb_refl. reflexivity.
    + destruct (Nat.eqb_spec (List.length pre2)
                  (List.length pre2 + S (List.length r2))) as [E|_];
        [lia | reflexivity].
  - destruct l2 as [|b r2].
    + simpl. rewrite app_nil_r, Hlen, Nat.eqb_refl. reflexivity.
    + cbn [List.length scan_from scan_rec].
      rewrite length_app. cbn [List.length].
      destruct (Nat.eqb_spec (List.length pre2 + S (List.length r2))
                  (List.length pre1)) as [E|_]; [lia|].
      assert (Hb : nth_error (pre2 ++ b :: r2) (List.length pre1) = Some b)
        by (rewrite Hlen; apply nth_error_middle).
      rewrite nth_error_middle, Hb.
      cbn [elem_eq elem_gt].
      destruct (eq_js a b); [|reflexivity].
      specialize (IH r2 (pre1 ++ [a])%list (pre2 ++ [b])%list).
      rewrite !length_app in IH. cbn [List.length] in IH.
      rewrite <- !app_assoc in IH. cbn [app] in IH.
      replace (S (List.length pre1)) with (List.length pre1 + 1)%nat by lia.
      apply IH. lia.
Qed.

Lemma scan_scan_rec (l1 l2 : list A) :
  scan eq_js gt_js l1 l2 = scan_rec eq_js gt_js l1 l2.
Proof.
  unfold scan.
  exact (scan_from_scan_rec l1 l2 [] [] eq_refl).
Qed.

(** The scan answers -1, 0 or 1. *)
Lemma scan_rec_range (l1 l2 : list A) :
  scan_rec eq_js gt_js l1 l2 = Num (-1)
  \/ scan_rec eq_js gt_js l1 l2 = Num 0
  \/ scan_rec eq_js gt_js l1 l2 = Num 1.
Proof.
  revert l2; induction l1 as [|a r1 IH]; intros [|b r2]; simpl; auto.
  destruct (eq_js a b); [apply IH|].
  destruct (gt_js a b); auto.
Qed.

(** On sequences whose elements equal themselves: a sequence scans
    equal to itself, less than a proper extension, and a proper
    extension scans greater than it. *)

Lemma scan_rec_refl (l : list A) :
  self_equal eq_js l -> scan_rec eq_js gt_js l l = Num 0.
Proof.
  induction l as [|a r IH]; intros Hl; simpl; [reflexivity|].
  rewrite (Hl a (or_introl eq_refl)).
  apply IH. intros x Hx. apply Hl. right. exact Hx.
Qed.

Lemma scan_rec_shorter (p q : list A) :
  self_equal eq_js p -> q <> [] ->
  scan_rec eq_js gt_js p (p ++ q) = Num (-1).
Proof.
  induction p as [|a r IH]; intros Hp Hq; simpl.
  - destruct q; [contradiction | reflexivity].
  - rewrite (Hp a (or_introl eq_refl)).
    apply IH; [|exact Hq]. intros x Hx. apply Hp. right. exact Hx.
Qed.

Lemma scan_rec_longer (p q : list A) :
  self_equal eq_js p -> q <> [] ->
  scan_rec eq_js gt_js (p ++ q) p = Num 1.
Proof.
  induction p as [|a r IH]; intros Hp Hq; simpl.
  - destruct q; [contradiction | reflexivity].
  - rewrite (Hp a (or_introl eq_refl)).
    apply IH; [|exact Hq]. intros x Hx. apply Hp. right. exact Hx.
Qed.

End ScanFacts.

(* ------------------------------------------------------------------ *)
(** ** Parts, patterns and numbers *)

Lemma round_to_double_eq_self (n : Z) :
  num_eq (round_to_double n) (round_to_double n) = true.
Proof.
  unfold round_to_double.
  destruct (n <? 2 ^ 53); [apply Z.eqb_refl|].
  destruct (2 ^ 1024 <=? _); [reflexivity | apply Z.eqb_refl].
Qed.

Lemma Number_eq_self (x : string) :
  test_digits x = true -> num_eq (Number x) (Number x) = true.
Proof.
  intros Hx. unfold Number. rewrite Hx. apply round_to_double_eq_self.
Qed.

Lemma Number_parts_self_equal (l : list string) :
  forallb test_digits l = true -> self_equal num_eq (map Number l).
Proof.
  intros Hl a Ha.
  apply in_map_iff in Ha. destruct Ha as [x [<- Hx]].
  apply Number_eq_self.
  rewrite forallb_forall in Hl. apply Hl. exact Hx.
Qed.

Lemma string_parts_self_equal (l : list string) :
  self_equal String.eqb l.
Proof.
  intros a _. apply String.eqb_refl.
Qed.

Lemma push_zeros_repeat (k : nat) :
  forall parts, push_zeros k parts = (parts ++ repeat "0" k)%list.
Proof.
  induction k as [|k IH]; intros parts; simpl.
  - symmetry. apply app_nil_r.
  - rewrite IH, <- app_assoc. reflexivity.
Qed.

Lemma zero_parts_valid (lex : bool) (k : nat) :
  forallb (isValidPart lex) (repeat "0" k) = true.
Proof.
  induction k as [|k IH]; simpl; [reflexivity|].
  rewrite IH. destruct lex; reflexivity.
Qed.

Lemma compare_parts_scan_rec (lex : bool) (l1 l2 : list string) :
  compare_parts lex l1 l2 =
  if lex then scan_rec String.eqb str_gt l1 l2
  else scan_rec num_eq num_gt (map Number l1) (map Number l2).
Proof.
  unfold compare_parts. destruct lex; simpl; apply scan_scan_rec.
Qed.

Lemma compare_parts_refl (lex : bool) (l : list string) :
  forallb (isValidPart lex) l = true -> compare_parts lex l l = Num 0.
Proof.
  intros Hl. rewrite compare_parts_scan_rec. destruct lex.
  - apply scan_rec_refl, string_parts_self_equal.
  - apply scan_rec_refl, Number_parts_self_equal. exact Hl.
Qed.

Lemma compare_parts_shorter (lex : bool) (p q : list string) :
  forallb (isValidPart lex) p = true -> q <> [] ->
  compare_parts lex p (p ++ q) = Num (-1).
Proof.
  intros Hp Hq. rewrite compare_parts_scan_rec. destruct lex.
  - apply scan_rec_shorter; [apply string_parts_self_equal | exact Hq].
  - rewrite map_app. apply scan_rec_shorter.
    + apply Number_parts_self_equal. exact Hp.
    + destruct q; [contradiction | discriminate].
Qed.

Lemma compare_parts_longer (lex : bool) (p q : list string) :
  forallb (isValidPart lex) p = true -> q <> [] ->
  compare_parts lex (p ++ q) p = Num 1.
Proof.
  intros Hp Hq. rewrite compare_parts_scan_rec. destruct lex.
  - apply scan_rec_longer; [apply string_parts_self_equal | exact Hq].
  - rewrite map_app. apply scan_rec_longer.
    + apply Number_parts_self_equal. exact Hp.
    + destruct q; [contradiction | discriminate].
Qed.

Lemma compare_parts_range (lex : bool) (l1 l2 : list string) :
  compare_parts lex l1 l2 = Num (-1)
  \/ compare_parts lex l1 l2 = Num 0
  \/ compare_parts lex l1 l2 = Num 1.
Proof.
  rewrite compare_parts_scan_rec. destruct lex; apply scan_rec_range.
Qed.

(** On valid operands the comparison is the scan of the parts, padded
    when [zeroExtend] is on. *)
Lemma versionCompare_valid (v1 v2 : string) (options : option Options) :
  valid_version options v1 = true ->
  valid_version options v2 = true ->
  versionCompare v1 v2 options =
  let lex := option_flag options lexicographical in
  let p1 := split "." v1 in
  let p2 := split "." v2 in
  if option_flag options zeroExtend
  then
    let p1' := (p1 ++ repeat "0" (List.length p2 - List.length p1))%list in
    compare_parts lex p1'
      (p2 ++ repeat "0" (List.length p1' - List.length p2))%list
  else compare_parts lex p1 p2.
Proof.
  unfold valid_version, versionCompare. intros H1 H2.
  rewrite H1, H2. cbn [negb orb].
  destruct (option_flag options zeroExtend); cbv zeta.
  - rewrite !push_zeros_repeat. reflexivity.
  - reflexivity.
Qed.

(** The comparison is [NaN] exactly when an operand is not valid. *)
Lemma versionCompare_NaN_iff (v1 v2 : string) (options : option Options) :
  versionCompare v1 v2 options = NaN <->
  valid_version options v1 = false \/ valid_version options v2 = false.
Proof.
  split.
  - intros H.
    destruct (valid_version options v1) eqn:H1; [|left; reflexivity].
    destruct (valid_version options v2) eqn:H2; [|right; reflexivity].
    rewrite (versionCompare_valid _ _ _ H1 H2) in H. cbv zeta in H.
    destruct (option_flag options zeroExtend);
      match type of H with
      | compare_parts ?l ?a ?b = _ =>
          destruct (compare_parts_range l a b) as [E|[E|E]];
          rewrite E in H; discriminate
      end.
  - unfold valid_version, versionCompare. intros [H|H]; rewrite H.
    + reflexivity.
    + cbn [negb]. rewrite orb_true_r. reflexivity.
Qed.

(** The two patterns, read as regular expressions: a non-empty run of
    digits, and a non-empty run of digits followed by a run of
    letters. *)
Lemma test_digits_spec (x : string) :
  test_digits x = true <-> x <> EmptyString /\ all_chars is_digit x = true.
Proof.
  destruct x as [|c r]; simpl; split.
  - discriminate.
  - intros [H _]. contradiction H. reflexivity.
  - intros H. split; [discriminate | exact H].
  - intros [_ H]. exact H.
Qed.

Lemma skip_chars_split (p : ascii -> bool) (s : string) :
  exists run, s = run ++ skip_chars p s /\ all_chars p run = true.
Proof.
  induction s as [|c r [run [Hr Hp]]]; simpl.
  - exists EmptyString. split; reflexivity.
  - destruct (p c) eqn:Hc.
    + exists (String c run). simpl. rewrite Hc, Hp, <- Hr.
      split; reflexivity.
    + exists EmptyString. split; reflexivity.
Qed.

Lemma all_chars_skip (p q : ascii -> bool) (s : string) :
  all_chars q s = true -> all_chars q (skip_chars p s) = true.
Proof.
  induction s as [|c r IH]; simpl; [reflexivity|].
  intros H. apply andb_true_iff in H. destruct H as [Hc Hr].
  destruct (p c); [apply IH; exact Hr|].
  simpl. rewrite Hc, Hr. reflexivity.
Qed.

Lemma all_chars_skip_app (p q : ascii -> bool) (run rest : string) :
  all_chars p run = true -> all_chars q rest = true ->
  all_chars q (skip_chars p (run ++ rest)) = true.
Proof.
  induction run as [|c r IH]; simpl; intros Hrun Hrest.
  - apply all_chars_skip. exact Hrest.
  - apply andb_true_iff in Hrun. destruct Hrun as [Hc Hr].
    rewrite Hc. apply IH; assumption.
Qed.

Lemma test_digits_letters_spec (x : string) :
  test_digits_letters x = true <->
  exists ds ls,
    x = ds ++ ls /\ ds <> EmptyString
    /\ all_chars is_digit ds = true /\ all_chars is_letter ls = true.
Proof.
  split.
  - destruct x as [|c r]; simpl; [discriminate|].
    intros H. apply andb_true_iff in H. destruct H as [Hc Hl].
    destruct (skip_chars_split is_digit r) as [run [Hr Hrun]].
    exists (String c run), (skip_chars is_digit r). simpl.
    rewrite <- Hr, Hc, Hrun.
    repeat split; [discriminate | exact Hl].
  - intros [ds [ls [-> [Hne [Hd Hl]]]]].
    destruct ds as [|c r]; [contradiction Hne; reflexivity|].
    simpl in *. apply andb_true_iff in Hd. destruct Hd as [Hc Hr].
    rewrite Hc. simpl. apply all_chars_skip_app; assumption.
Qed.

(* ------------------------------------------------------------------ *)
(** ** Properties of versionCompare *)

(** C1.  Without [zeroExtend], for valid version strings where the
    parts of the second operand are the parts of the first followed by
    at least one more part, comparing the shorter with the longer
    answers -1 (less) and comparing the longer with the shorter
    answers 1 (greater). *)
Theorem versionCompare_proper_prefix
  (v1 v2 : string) (options : option Options)
  (x : string) (more : list string) :
  option_flag options zeroExtend = false ->
  valid_version options v1 = true ->
  valid_version options v2 = true ->
  split "." v2 = (split "." v1 ++ x :: more)%list ->
  versionCompare v1 v2 options = Num (-1)
  /\ versionCompare v2 v1 options = Num 1.
Proof.
  intros Hz H1 H2 Hsplit.
  rewrite (versionCompare_valid _ _ _ H1 H2).
  rewrite (versionCompare_valid _ _ _ H2 H1).
  cbv zeta. rewrite Hz, Hsplit.
  split.
  - apply compare_parts_shorter; [exact H1 | discriminate].
  - apply compare_parts_longer; [exact H1 | discriminate].
Qed.

Lemma versionCompare_proper_prefix_example :
  (option_flag None zeroExtend = false
   /\ valid_version None "1.2" = true
   /\ valid_version None "1.2.0" = true
   /\ split "." "1.2.0" = (split "." "1.2" ++ ["0"])%list)
  /\ versionCompare "1.2" "1.2.0" None = Num (-1)
  /\ versionCompare "1.2.0" "1.2" None = Num 1.
Proof.
  split.
  - repeat split; reflexivity.
  - apply (versionCompare_proper_prefix "1.2" "1.2.0" None "0" []);
      reflexivity.
Defined.

(** C3.  When some part of either operand fails the pattern of the
    active mode ([/^\d+$/], or [/^\d+[A-Za-z]*$/] under
    [lexicographical]), the comparison answers [NaN]. *)
Theorem versionCompare_invalid_part
  (v1 v2 : string) (options : option Options) (x : string) :
  In x (split "." v1) \/ In x (split "." v2) ->
  isValidPart (option_flag options lexicographical) x = false ->
  versionCompare v1 v2 options = NaN.
Proof.
  intros Hin Hx. apply versionCompare_NaN_iff. unfold valid_version.
  destruct Hin as [Hin|Hin]; [left | right];
    apply not_true_is_false; intros Hall;
    rewrite forallb_forall in Hall; apply Hall in Hin; congruence.
Qed.

Lemma versionCompare_invalid_part_example :
  ((In "a" (split "." "1.a") \/ In "a" (split "." "1.0"))
   /\ isValidPart (option_flag None lexicographical) "a" = false)
  /\ versionCompare "1.a" "1.0" None = NaN.
Proof.
  split.
  - split; [left; simpl; auto | reflexivity].
  - apply (versionCompare_invalid_part "1.a" "1.0" None "a");
      [left; simpl; auto | reflexivity].
Defined.

(** C8.  A version string that is valid for the active mode compares
    equal (0) to itself, under every setting of the options. *)
Theorem versionCompare_reflexive (v : string) (options : option Options) :
  valid_version options v = true ->
  versionCompare v v options = Num 0.
Proof.
  intros Hv. rewrite (versionCompare_valid _ _ _ Hv Hv). cbv zeta.
  destruct (option_flag options zeroExtend).
  - rewrite Nat.sub_diag. cbn [repeat]. rewrite !app_nil_r.
    rewrite Nat.sub_diag. cbn [repeat]. rewrite !app_nil_r.
    apply compare_parts_refl. exact Hv.
  - apply compare_parts_refl. exact Hv.
Qed.

Lemma versionCompare_reflexive_example :
  valid_version (Some (mkOptions true true)) "1.8.0rc" = true
  /\ versionCompare "1.8.0rc" "1.8.0rc" (Some (mkOptions true true))
     = Num 0.
Proof.
  split; [reflexivity|].
  apply (versionCompare_reflexive "1.8.0rc" (Some (mkOptions true true))).
  reflexivity.
Defined.

(** C9.  With [zeroExtend] on, valid operands are compared after the
    shorter part sequence has been extended with ["0"] parts to the
    length of the longer one; hence two versions that differ only by
    trailing ["0"] parts compare equal (0), whichever side is the
    longer. *)
Theorem versionCompare_zeroExtend (options : option Options) :
  option_flag options zeroExtend = true ->
  (forall v1 v2,
      valid_version options v1 = true ->
      valid_version options v2 = true ->
      let p1 := split "." v1 in
      let p2 := split "." v2 in
      let n := Nat.max (List.length p1) (List.length p2) in
      let q1 := (p1 ++ repeat "0" (n - List.length p1))%list in
      let q2 := (p2 ++ repeat "0" (n - List.length p2))%list in
      List.length q1 = n /\ List.length q2 = n
      /\ versionCompare v1 v2 options
         = compare_parts (option_flag options lexicographical) q1 q2)
  /\ (forall v1 v2 k,
         valid_version options v1 = true ->
         split "." v2 = (split "." v1 ++ repeat "0" k)%list ->
         versionCompare v1 v2 options = Num 0
         /\ versionCompare v2 v1 options = Num 0).
Proof.
  intros Hz.
  assert (Hpad : forall v1 v2,
      valid_version options v1 = true ->
      valid_version options v2 = true ->
      let p1 := split "." v1 in
      let p2 := split "." v2 in
      let n := Nat.max (List.length p1) (List.length p2) in
      versionCompare v1 v2 options
      = compare_parts (option_flag options lexicographical)
          (p1 ++ repeat "0" (n - List.length p1))%list
          (p2 ++ repeat "0" (n - List.length p2))%list).
  { intros v1 v2 H1 H2. cbv zeta.
    rewrite (versionCompare_valid _ _ _ H1 H2). cbv zeta. rewrite Hz.
    rewrite length_app, repeat_length.
    f_equal; f_equal; f_equal; lia. }
  split.
  - intros v1 v2 H1 H2. cbv zeta.
    rewrite !length_app, !repeat_length.
    repeat split; [lia | lia | apply Hpad; assumption].
  - intros v1 v2 k H1 Hsplit.
    assert (H2 : valid_version options v2 = true).
    { unfold valid_version in *. rewrite Hsplit, forallb_app, H1.
      apply zero_parts_valid. }
    rewrite (Hpad _ _ H1 H2), (Hpad _ _ H2 H1). cbv zeta.
    rewrite Hsplit, length_app, repeat_length.
    replace (Nat.max (List.length (split "." v1))
               (List.length (split "." v1) + k))
      with (List.length (split "." v1) + k)%nat by lia.
    replace (Nat.max (List.length (split "." v1) + k)
               (List.length (split "." v1)))
      with (List.length (split "." v1) + k)%nat by lia.
    replace (List.length (split "." v1) + k - List.length (split "." v1))%nat
      with k by lia.
    rewrite Nat.sub_diag. cbn [repeat]. rewrite app_nil_r.
    assert (Hall : forallb (isValidPart (option_flag options lexicographical))
                     (split "." v1 ++ repeat "0" k) = true).
    { rewrite <- Hsplit. exact H2. }
    split; apply compare_parts_refl; exact Hall.
Qed.

Lemma versionCompare_zeroExtend_example :
  option_flag (Some (mkOptions false true)) zeroExtend = true
  /\ versionCompare "1.2" "1.2.0" (Some (mkOptions false true)) = Num 0
  /\ versionCompare "1.2.0" "1.2" (Some (mkOptions false true)) = Num 0.
Proof.
  split; [reflexivity|].
  apply (proj2 (versionCompare_zeroExtend (Some (mkOptions false true))
                  eq_refl) "1.2" "1.2.0" 1%nat);
    reflexivity.
Defined.

(* ------------------------------------------------------------------ *)
(** ** The compatibility check *)

Lemma versionCompare_range (v1 v2 : string) (options : option Options) :
  versionCompare v1 v2 options = NaN
  \/ versionCompare v1 v2 options = Num (-1)
  \/ versionCompare v1 v2 options = Num 0
  \/ versionCompare v1 v2 options = Num 1.
Proof.
  destruct (valid_version options v1) eqn:H1;
    [|left; apply versionCompare_NaN_iff; left; exact H1].
  destruct (valid_version options v2) eqn:H2;
    [|left; apply versionCompare_NaN_iff; right; exact H2].
  right. rewrite (versionCompare_valid _ _ _ H1 H2). cbv zeta.
  destruct (option_flag options zeroExtend); apply compare_parts_range.
Qed.

(** The test [versionCompare(version, "1.8") < 0] holds exactly for
    the answer -1. *)
Lemma below_zero_iff_less (version : string) :
  num_lt (versionCompare version "1.8" None) (Num 0) = true
  <-> versionCompare version "1.8" None = Num (-1).
Proof.
  destruct (versionCompare_range version "1.8" None) as [E|[E|[E|E]]];
    rewrite E; split; intros H; try reflexivity; discriminate.
Qed.

Lemma prefix_app (x rest : string) : String.prefix x (x ++ rest) = true.
Proof.
  induction x as [|c r IH]; simpl; [destruct rest; reflexivity|].
  destruct (ascii_dec c c) as [_|N]; [exact IH | contradiction N; reflexivity].
Qed.

Lemma occurs_middle (before x rest : string) :
  occurs x (before ++ x ++ rest) = true.
Proof.
  induction before as [|c r IH].
  - cbn [append]. destruct x; simpl.
    + destruct rest; reflexivity.
    + destruct (ascii_dec a a) as [_|N]; [|contradiction N; reflexivity].
      rewrite prefix_app. reflexivity.
  - cbn [append occurs]. rewrite IH. apply orb_true_r.
Qed.

Lemma occurs_head (x rest : string) : occurs x (x ++ rest) = true.
Proof.
  exact (occurs_middle EmptyString x rest).
Qed.

Lemma occurs_app_r (x before rest : string) :
  occurs x rest = true -> occurs x (before ++ rest) = true.
Proof.
  intros H. induction before as [|c r IH]; [exact H|].
  cbn [append occurs]. rewrite IH. apply orb_true_r.
Qed.

Lemma app_one_neq {A : Type} (l : list A) (a : A) : (l ++ [a])%list <> l.
Proof.
  intros H. apply (f_equal (@List.length A)) in H.
  rewrite length_app in H. simpl in H. lia.
Qed.

(** C4.  The check puts one notice on the page (severity ["error"],
    delay 10000, the text naming the host version) when the comparison
    of the host version with ["1.8"] answers -1, and only then; on 0,
    1 and [NaN] it leaves the page as it was. *)
Theorem performCheck_notice_iff_less (version : string) (p : page) :
  (type (unsupported_notice version) = "error"
   /\ delay (unsupported_notice version) = 10000
   /\ occurs version (text (unsupported_notice version)) = true)
  /\ (versionCompare version "1.8" None = Num (-1) <->
      performCheck version p
      = mkPage (Self.set_notify (Some (unsupported_notice version)) (self p))
               (notices p ++ [unsupported_notice version]))
  /\ (versionCompare version "1.8" None <> Num (-1) <->
      performCheck version p = p).
Proof.
  split; [|split].
  - repeat split. unfold unsupported_notice, unsupported_text, text.
    apply occurs_middle.
  - unfold performCheck.
    destruct (num_lt (versionCompare version "1.8" None) (Num 0)) eqn:E.
    + apply below_zero_iff_less in E. rewrite E. split; reflexivity.
    + split; intros H.
      * apply below_zero_iff_less in H. congruence.
      * exfalso. apply (f_equal notices) in H. simpl in H.
        symmetry in H. exact (app_one_neq _ _ H).
  - unfold performCheck.
    destruct (num_lt (versionCompare version "1.8" None) (Num 0)) eqn:E.
    + apply below_zero_iff_less in E. split; intros H.
      * contradiction.
      * exfalso. apply (f_equal notices) in H. simpl in H.
        exact (app_one_neq _ _ H).
    + split; intros H; [reflexivity|].
      intros L. apply below_zero_iff_less in L. congruence.
Qed.

Lemma performCheck_examples :
  (versionCompare "1.7.9" "1.8" None = Num (-1)
   /\ notices (performCheck "1.7.9" (mkPage KarmenViewModel []))
      = [unsupported_notice "1.7.9"])
  /\ (versionCompare "1.8.1" "1.8" None = Num 1
      /\ performCheck "1.8.1" (mkPage KarmenViewModel [])
         = mkPage KarmenViewModel []).
Proof.
  split; split.
  - reflexivity.
  - rewrite (proj1 (proj1 (proj2 (performCheck_notice_iff_less "1.7.9"
                (mkPage KarmenViewModel []))))
               eq_refl).
    reflexivity.
  - reflexivity.
  - apply (proj1 (proj2 (proj2 (performCheck_notice_iff_less "1.8.1"
                (mkPage KarmenViewModel []))))).
    discriminate.
Defined.

(* ------------------------------------------------------------------ *)
(** ** Properties of the message handler *)

(** C7.  A push message of another plugin changes nothing. *)
Theorem other_plugin_ignored
  (plugin : string) (data : Data.t) (self : Self.t) :
  plugin <> "karmen" ->
  onDataUpdaterPluginMessage plugin data self = self.
Proof.
  intros Hp. unfold onDataUpdaterPluginMessage.
  apply String.eqb_neq in Hp. rewrite Hp. reflexivity.
Qed.

Lemma other_plugin_ignored_example :
  "octolapse" <> "karmen"
  /\ onDataUpdaterPluginMessage "octolapse"
       (Data.mk (JStr "disconnected") (JStr "timeout") (JStr "check network"))
       KarmenViewModel
     = KarmenViewModel.
Proof.
  split; [discriminate|].
  apply (other_plugin_ignored "octolapse"). discriminate.
Defined.

(** C10.  A message of this plugin whose [connectionStatus] is absent
    or otherwise falsy changes nothing. *)
Theorem falsy_status_ignored (data : Data.t) (self : Self.t) :
  truthy (Data.connectionStatus data) = false ->
  onDataUpdaterPluginMessage "karmen" data self = self.
Proof.
  intros Hs. unfold onDataUpdaterPluginMessage.
  rewrite Hs. reflexivity.
Qed.

Lemma falsy_status_ignored_example :
  truthy (Data.connectionStatus
            (Data.mk JUndefined (JStr "timeout") (JStr "check network")))
  = false
  /\ onDataUpdaterPluginMessage "karmen"
       (Data.mk JUndefined (JStr "timeout") (JStr "check network"))
       KarmenViewModel
     = KarmenViewModel.
Proof.
  split; [reflexivity|].
  apply (falsy_status_ignored
           (Data.mk JUndefined (JStr "timeout") (JStr "check network"))).
  reflexivity.
Defined.

(** The falsy values of the model. *)
Lemma truthy_false_iff (v : jsval) :
  truthy v = false <->
  v = JUndefined \/ v = JNull \/ v = JBool false \/ v = JNum 0
  \/ v = JStr EmptyString.
Proof.
  split.
  - destruct v as [| |b|z|s]; simpl; intros H; auto.
    + subst b. auto.
    + apply negb_false_iff, Z.eqb_eq in H. subst z. auto 6.
    + apply negb_false_iff, String.eqb_eq in H. subst s. auto 6.
  - intros [->|[->|[->|[->| ->]]]]; reflexivity.
Qed.

(** The handler on a status that is a non-empty string other than the
    four literals: the class and the title are derived from the
    status, the description is not written. *)
Lemma handler_unrecognized
  (s : string) (error advise : jsval) (self : Self.t) :
  s <> EmptyString ->
  s <> "connected" -> s <> "connecting" ->
  s <> "disconnecting" -> s <> "disconnected" ->
  onDataUpdaterPluginMessage "karmen" (Data.mk (JStr s) error advise) self
  = Self.mk ("karmen-status-" ++ s) s
            (Self.connectionStatusDescription self)
            (Self.notify self).
Proof.
  intros H0 H1 H2 H3 H4.
  apply String.eqb_neq in H0, H1, H2, H3, H4.
  unfold onDataUpdaterPluginMessage.
  cbn [Data.connectionStatus truthy loose_eq_word to_string].
  rewrite H0, H1, H2, H3, H4. reflexivity.
Qed.

(** The handler on the four literals. *)
Lemma handler_connected (error advise : jsval) (self : Self.t) :
  onDataUpdaterPluginMessage "karmen"
    (Data.mk (JStr "connected") error advise) self
  = Self.mk "karmen-status-connected"
      ("<span class=" ++ dq ++ "text-success" ++ dq ++ ">Connected</span>")
      "Click the icon to go to see your printer in Karmen Cloud."
      (Self.notify self).
Proof. reflexivity. Qed.

Lemma handler_connecting (error advise : jsval) (self : Self.t) :
  onDataUpdaterPluginMessage "karmen"
    (Data.mk (JStr "connecting") error advise) self
  = Self.mk "karmen-status-connecting"
      ("<span class=" ++ dq ++ "text-warning" ++ dq
       ++ ">Connecting ...</span>")
      ("Connecting to Karmen servers. "
       ++ (if truthy error
           then "<p>Last error was:</p> <pre>" ++ to_string error ++ "</pre>"
           else EmptyString))
      (Self.notify self).
Proof. reflexivity. Qed.

Lemma handler_disconnecting (error advise : jsval) (self : Self.t) :
  onDataUpdaterPluginMessage "karmen"
    (Data.mk (JStr "disconnecting") error advise) self
  = Self.mk "karmen-status-disconnecting"
      ("<span class=" ++ dq ++ "text-warning" ++ dq
       ++ ">Disconnecting ...</span>")
      "Disconnecting from Karmen."
      (Self.notify self).
Proof. reflexivity. Qed.

Lemma handler_disconnected (error advise : jsval) (self : Self.t) :
  onDataUpdaterPluginMessage "karmen"
    (Data.mk (JStr "disconnected") error advise) self
  = if truthy error
    then Self.mk "karmen-status-disconnected"
           ("<span class=" ++ dq ++ "text-error" ++ dq
            ++ ">Connection error</span>")
           ("<p class=" ++ dq ++ "text-error" ++ dq ++ ">"
            ++ to_string advise ++ "</p><p>Error:<pre>"
            ++ to_string error ++ ".</pre></p>")
           (Self.notify self)
    else Self.mk "karmen-status-disconnected"
           ("<span class=" ++ dq ++ "text-warning" ++ dq
            ++ ">Disconnected</span>")
           ("<p class=" ++ dq ++ "text-error" ++ dq ++ ">"
            ++ to_string advise ++ "</p>")
           (Self.notify self).
Proof.
  unfold onDataUpdaterPluginMessage. cbn [Data.connectionStatus Data.error].
  destruct (truthy error); reflexivity.
Qed.

(** C2, as the specification words it, fails: the status ["paused"] is
    none of the four literals, and the handler rewrites the class and
    the title of the freshly constructed view model. *)
Lemma unrecognized_status_rewrites_class_and_title :
  recognized (JStr "paused") = false
  /\ ~ (Self.connectionStatus
          (onDataUpdaterPluginMessage "karmen"
             (Data.mk (JStr "paused") JUndefined JUndefined) KarmenViewModel)
        = Self.connectionStatus KarmenViewModel
        /\ Self.iconTitle
             (onDataUpdaterPluginMessage "karmen"
                (Data.mk (JStr "paused") JUndefined JUndefined)
                KarmenViewModel)
           = Self.iconTitle KarmenViewModel
        /\ Self.connectionStatusDescription
             (onDataUpdaterPluginMessage "karmen"
                (Data.mk (JStr "paused") JUndefined JUndefined)
                KarmenViewModel)
           = Self.connectionStatusDescription KarmenViewModel).
Proof.
  split; [reflexivity|].
  intros [H _]. vm_compute in H. discriminate H.
Qed.

(** C2, amended.  For a message of this plugin whose status is a
    non-empty string other than the four literals, the handler leaves
    the description as it was, sets the class to ["karmen-status-"]
    followed by the status and sets the title to the status. *)
Theorem unrecognized_status_keeps_description
  (s : string) (error advise : jsval) (self : Self.t) :
  s <> EmptyString ->
  s <> "connected" -> s <> "connecting" ->
  s <> "disconnecting" -> s <> "disconnected" ->
  Self.connectionStatusDescription
    (onDataUpdaterPluginMessage "karmen" (Data.mk (JStr s) error advise) self)
  = Self.connectionStatusDescription self
  /\ Self.connectionStatus
       (onDataUpdaterPluginMessage "karmen"
          (Data.mk (JStr s) error advise) self)
     = "karmen-status-" ++ s
  /\ Self.iconTitle
       (onDataUpdaterPluginMessage "karmen"
          (Data.mk (JStr s) error advise) self)
     = s.
Proof.
  intros H0 H1 H2 H3 H4.
  rewrite (handler_unrecognized s error advise self H0 H1 H2 H3 H4).
  repeat split.
Qed.

Lemma unrecognized_status_keeps_description_example :
  ("paused" <> EmptyString
   /\ "paused" <> "connected" /\ "paused" <> "connecting"
   /\ "paused" <> "disconnecting" /\ "paused" <> "disconnected")
  /\ Self.connectionStatusDescription
       (onDataUpdaterPluginMessage "karmen"
          (Data.mk (JStr "paused") (JStr "timeout") JUndefined)
          KarmenViewModel)
     = "Loading and connecting to Karmen cloud."
  /\ Self.connectionStatus
       (onDataUpdaterPluginMessage "karmen"
          (Data.mk (JStr "paused") (JStr "timeout") JUndefined)
          KarmenViewModel)
     = "karmen-status-paused"
  /\ Self.iconTitle
       (onDataUpdaterPluginMessage "karmen"
          (Data.mk (JStr "paused") (JStr "timeout") JUndefined)
          KarmenViewModel)
     = "paused".
Proof.
  split; [repeat split; discriminate|].
  apply (unrecognized_status_keeps_description
           "paused" (JStr "timeout") JUndefined KarmenViewModel);
    discriminate.
Defined.

(** C5, as the specification words it, fails: on the status
    ["connected"] the class is not ["status-connected"]. *)
Lemma statusClass_is_not_status_prefixed :
  Self.connectionStatus
    (onDataUpdaterPluginMessage "karmen"
       (Data.mk (JStr "connected") JUndefined JUndefined) KarmenViewModel)
  <> "status-" ++ "connected".
Proof.
  intros H. vm_compute in H. discriminate H.
Qed.

(** C5, amended.  For every message of this plugin whose status is
    a non-empty string, the class the handler leaves is
    ["karmen-status-"] followed by that string; for the four literals
    that is ["karmen-status-connecting"], ["karmen-status-connected"],
    ["karmen-status-disconnecting"] and
    ["karmen-status-disconnected"]. *)
Theorem statusClass_karmen_prefixed
  (s : string) (error advise : jsval) (self : Self.t) :
  s <> EmptyString ->
  Self.connectionStatus
    (onDataUpdaterPluginMessage "karmen" (Data.mk (JStr s) error advise) self)
  = "karmen-status-" ++ s.
Proof.
  intros H0. apply String.eqb_neq in H0.
  unfold onDataUpdaterPluginMessage.
  cbn [Data.connectionStatus Data.error truthy loose_eq_word to_string].
  rewrite H0. cbn [String.eqb Ascii.eqb Bool.eqb negb]. cbv zeta.
  repeat match goal with
         | |- context [if String.eqb ?a ?b then _ else _] =>
             destruct (String.eqb a b)
         | |- context [if truthy ?v then _ else _] => destruct (truthy v)
         end;
    reflexivity.
Qed.

Lemma statusClass_karmen_prefixed_example :
  ("connecting" <> EmptyString /\ "connected" <> EmptyString
   /\ "disconnecting" <> EmptyString /\ "disconnected" <> EmptyString)
  /\ Self.connectionStatus
       (onDataUpdaterPluginMessage "karmen"
          (Data.mk (JStr "connecting") (JStr "timeout") JUndefined)
          (Self.mk "karmen-status-connected" "t" "d" None))
     = "karmen-status-connecting"
  /\ Self.connectionStatus
       (onDataUpdaterPluginMessage "karmen"
          (Data.mk (JStr "connected") JUndefined JUndefined) KarmenViewModel)
     = "karmen-status-connected"
  /\ Self.connectionStatus
       (onDataUpdaterPluginMessage "karmen"
          (Data.mk (JStr "disconnecting") JUndefined JUndefined)
          KarmenViewModel)
     = "karmen-status-disconnecting"
  /\ Self.connectionStatus
       (onDataUpdaterPluginMessage "karmen"
          (Data.mk (JStr "disconnected") (JStr "timeout")
                   (JStr "check network"))
          KarmenViewModel)
     = "karmen-status-disconnected".
Proof.
  split; [repeat split; discriminate|].
  split; [|split; [|split]].
  - apply (statusClass_karmen_prefixed "connecting"). discriminate.
  - apply (statusClass_karmen_prefixed "connected"). discriminate.
  - apply (statusClass_karmen_prefixed "disconnecting"). discriminate.
  - apply (statusClass_karmen_prefixed "disconnected"). discriminate.
Defined.

(** C6 at a message that is disconnected and carries no [advise]: the
    description the handler writes holds the text [undefined] in the
    place of the absent attribute, with and without an [error]. *)
Theorem disconnected_without_advise_shows_undefined (self : Self.t) :
  Self.connectionStatusDescription
    (onDataUpdaterPluginMessage "karmen"
       (Data.mk (JStr "disconnected") JUndefined JUndefined) self)
  = "<p class=" ++ dq ++ "text-error" ++ dq ++ ">undefined</p>"
  /\ Self.connectionStatusDescription
       (onDataUpdaterPluginMessage "karmen"
          (Data.mk (JStr "disconnected") (JStr "timeout") JUndefined) self)
     = "<p class=" ++ dq ++ "text-error" ++ dq
       ++ ">undefined</p><p>Error:<pre>timeout.</pre></p>".
Proof.
  split; reflexivity.
Qed.

(** Where the attributes are present, or the status is not
    ["disconnected"], the description is as the table of the
    specification has it. *)
Lemma description_omits_absent_error (advise : jsval) (self : Self.t) :
  Self.connectionStatusDescription
    (onDataUpdaterPluginMessage "karmen"
       (Data.mk (JStr "connecting") JUndefined advise) self)
  = "Connecting to Karmen servers. "
  /\ Self.connectionStatusDescription
       (onDataUpdaterPluginMessage "karmen"
          (Data.mk (JStr "disconnected") JUndefined advise) self)
     = "<p class=" ++ dq ++ "text-error" ++ dq ++ ">"
       ++ to_string advise ++ "</p>".
Proof.
  split; reflexivity.
Qed.

Lemma description_holds_advise_and_error
  (error advise : string) (self : Self.t) :
  error <> EmptyString ->
  let description :=
    Self.connectionStatusDescription
      (onDataUpdaterPluginMessage "karmen"
         (Data.mk (JStr "disconnected") (JStr error) (JStr advise)) self) in
  occurs advise description = true /\ occurs error description = true.
Proof.
  intros He description. subst description.
  rewrite handler_disconnected. cbn [truthy].
  apply String.eqb_neq in He. rewrite He.
  cbn [negb Self.connectionStatusDescription to_string].
  split;
    repeat first [apply occurs_head | apply occurs_app_r].
Qed.

(* ------------------------------------------------------------------ *)
(** ** The scan as an order *)

Section ScanOrder.

Context {A : Type}.
Variable eq_js : A -> A -> bool.
Variable gt_js : A -> A -> bool.
Variable dom : A -> Prop.

Hypothesis eq_js_true : forall a b, dom a -> dom b ->
  (eq_js a b = true <-> a = b).
Hypothesis gt_js_apart : forall a b, dom a -> dom b ->
  eq_js a b = false -> gt_js b a = negb (gt_js a b).
Hypothesis gt_js_trans : forall a b c, dom a -> dom b -> dom c ->
  gt_js a b = true -> gt_js b c = true -> gt_js a c = true.
Hypothesis gt_js_irrefl : forall a, dom a -> gt_js a a = false.

Lemma eq_js_sym (a b : A) : dom a -> dom b -> eq_js a b = eq_js b a.
Proof.
  intros Ha Hb.
  destruct (eq_js a b) eqn:E1, (eq_js b a) eqn:E2; try reflexivity.
  - apply (eq_js_true a b Ha Hb) in E1. symmetry in E1.
    apply (eq_js_true b a Hb Ha) in E1. congruence.
  - apply (eq_js_true b a Hb Ha) in E2. symmetry in E2.
    apply (eq_js_true a b Ha Hb) in E2. congruence.
Qed.

Lemma scan_rec_swap (l1 : list A) :
  forall l2, Forall dom l1 -> Forall dom l2 ->
  scan_rec eq_js gt_js l2 l1 = opposite (scan_rec eq_js gt_js l1 l2).
Proof.
  induction l1 as [|a r1 IH]; intros [|b r2] H1 H2; simpl; try reflexivity.
  inversion H1 as [|? ? Ha Hr1]; inversion H2 as [|? ? Hb Hr2]; subst.
  rewrite (eq_js_sym b a Hb Ha).
  destruct (eq_js a b) eqn:E; [apply IH; assumption|].
  rewrite (gt_js_apart a b Ha Hb E).
  destruct (gt_js a b); reflexivity.
Qed.

Lemma scan_rec_zero_iff (l1 : list A) :
  forall l2, Forall dom l1 -> Forall dom l2 ->
  (scan_rec eq_js gt_js l1 l2 = Num 0 <-> l1 = l2).
Proof.
  induction l1 as [|a r1 IH]; intros [|b r2] H1 H2; simpl;
    try (split; [discriminate | discriminate]).
  - split; reflexivity.
  - inversion H1 as [|? ? Ha Hr1]; inversion H2 as [|? ? Hb Hr2]; subst.
    destruct (eq_js a b) eqn:E.
    + apply (eq_js_true a b Ha Hb) in E. subst b.
      rewrite (IH r2 Hr1 Hr2). split; [intros ->; reflexivity|].
      intros H. inversion H. reflexivity.
    + split.
      * destruct (gt_js a b); discriminate.
      * intros H. inversion H; subst.
        assert (T : eq_js b b = true) by (apply eq_js_true; auto).
        congruence.
Qed.

Lemma scan_rec_less_trans (l1 : list A) :
  forall l2 l3, Forall dom l1 -> Forall dom l2 -> Forall dom l3 ->
  scan_rec eq_js gt_js l1 l2 = Num (-1) ->
  scan_rec eq_js gt_js l2 l3 = Num (-1) ->
  scan_rec eq_js gt_js l1 l3 = Num (-1).
Proof.
  induction l1 as [|a r1 IH]; intros [|b r2] [|c r3] H1 H2 H3;
    simpl; try discriminate; try reflexivity.
  inversion H1 as [|? ? Ha Hr1]; inversion H2 as [|? ? Hb Hr2];
    inversion H3 as [|? ? Hc Hr3]; subst.
  destruct (eq_js a b) eqn:Eab.
  - apply (eq_js_true a b Ha Hb) in Eab. subst b.
    destruct (eq_js a c); [apply IH; assumption|].
    intros _ H. exact H.
  - destruct (gt_js a b) eqn:Gab; [discriminate|]. intros _.
    assert (Gba : gt_js b a = true)
      by (rewrite (gt_js_apart a b Ha Hb Eab), Gab; reflexivity).
    destruct (eq_js b c) eqn:Ebc.
    + apply (eq_js_true b c Hb Hc) in Ebc. subst c.
      rewrite Eab, Gab. reflexivity.
    + destruct (gt_js b c) eqn:Gbc; [discriminate|]. intros _.
      assert (Gcb : gt_js c b = true)
        by (rewrite (gt_js_apart b c Hb Hc Ebc), Gbc; reflexivity).
      assert (Gca : gt_js c a = true)
        by (apply (gt_js_trans c b a); assumption).
      destruct (eq_js a c) eqn:Eac.
      * apply (eq_js_true a c Ha Hc) in Eac. subst c.
        rewrite (gt_js_irrefl a Ha) in Gca. discriminate.
      * rewrite (gt_js_apart a c Ha Hc Eac) in Gca.
        destruct (gt_js a c); [discriminate | reflexivity].
Qed.

End ScanOrder.

(** The two orders the scan runs on: numbers other than [NaN], and
    strings. *)
Lemma num_eq_true (a b : number) :
  is_number a -> is_number b -> (num_eq a b = true <-> a = b).
Proof.
  unfold is_number.
  destruct a as [|x|], b as [|y|]; simpl; intros Ha Hb;
    try contradiction; split; intros H;
    try discriminate; try reflexivity.
  - apply Z.eqb_eq in H. subst. reflexivity.
  - inversion H. apply Z.eqb_refl.
Qed.

Lemma num_gt_apart (a b : number) :
  is_number a -> is_number b ->
  num_eq a b = false -> num_gt b a = negb (num_gt a b).
Proof.
  unfold is_number.
  destruct a as [|x|], b as [|y|]; simpl; intros Ha Hb H;
    try contradiction; try discriminate; try reflexivity.
  apply Z.eqb_neq in H.
  destruct (Z.ltb_spec x y), (Z.ltb_spec y x); simpl; try reflexivity; lia.
Qed.

Lemma num_gt_trans (a b c : number) :
  is_number a -> is_number b -> is_number c ->
  num_gt a b = true -> num_gt b c = true -> num_gt a c = true.
Proof.
  destruct a as [|x|], b as [|y|], c as [|z|]; simpl; intros _ _ _ H1 H2;
    try discriminate; try reflexivity.
  apply Z.ltb_lt in H1, H2. apply Z.ltb_lt. lia.
Qed.

Lemma num_gt_irrefl (a : number) : is_number a -> num_gt a a = false.
Proof.
  destruct a as [|x|]; simpl; intros _; try reflexivity.
  apply Z.ltb_irrefl.
Qed.

Lemma string_compare_refl (a : string) : String.compare a a = Eq.
Proof.
  pose proof (String.compare_antisym a a) as H.
  destruct (String.compare a a); simpl in H; congruence.
Qed.

Lemma str_eq_true (a b : string) :
  any_string a -> any_string b -> (String.eqb a b = true <-> a = b).
Proof.
  intros _ _. apply String.eqb_eq.
Qed.

Lemma str_gt_apart (a b : string) :
  any_string a -> any_string b ->
  String.eqb a b = false -> str_gt b a = negb (str_gt a b).
Proof.
  intros _ _ H. apply String.eqb_neq in H.
  unfold str_gt, String.ltb. rewrite (String.compare_antisym b a).
  destruct (String.compare a b) eqn:E; simpl; try reflexivity.
  apply String.compare_eq_iff in E. congruence.
Qed.

Lemma str_gt_trans (a b c : string) :
  any_string a -> any_string b -> any_string c ->
  str_gt a b = true -> str_gt b c = true -> str_gt a c = true.
Proof.
  intros _ _ _. unfold str_gt, String.ltb. intros H1 H2.
  destruct (String.compare b a) eqn:E1; try discriminate.
  destruct (String.compare c b) eqn:E2; try discriminate.
  pose proof (@StrictOrder_Transitive _ _ String_as_OT.lt_strorder
                c b a E2 E1) as T.
  unfold String_as_OT.lt in T.
  change (String.compare c a = Lt) in T. rewrite T. reflexivity.
Qed.

Lemma str_gt_irrefl (a : string) : any_string a -> str_gt a a = false.
Proof.
  intros _. unfold str_gt, String.ltb.
  rewrite string_compare_refl. reflexivity.
Qed.

Lemma all_strings (l : list string) : Forall any_string l.
Proof.
  apply Forall_forall. intros x _. exact I.
Qed.

Lemma round_to_double_is_number (n : Z) : is_number (round_to_double n).
Proof.
  unfold is_number, round_to_double.
  destruct (n <? 2 ^ 53); [discriminate|].
  destruct (2 ^ 1024 <=? _); discriminate.
Qed.

Lemma Number_parts_are_numbers (l : list string) :
  forallb test_digits l = true -> Forall is_number (map Number l).
Proof.
  intros Hl. apply Forall_forall. intros a Ha.
  apply in_map_iff in Ha. destruct Ha as [x [<- Hx]].
  rewrite forallb_forall in Hl. unfold Number. rewrite (Hl x Hx).
  apply round_to_double_is_number.
Qed.

Lemma compare_parts_swap (lex : bool) (l1 l2 : list string) :
  forallb (isValidPart lex) l1 = true ->
  forallb (isValidPart lex) l2 = true ->
  compare_parts lex l2 l1 = opposite (compare_parts lex l1 l2).
Proof.
  intros H1 H2. rewrite !compare_parts_scan_rec. destruct lex.
  - apply (scan_rec_swap String.eqb str_gt any_string
             str_eq_true str_gt_apart); apply all_strings.
  - apply (scan_rec_swap num_eq num_gt is_number
             num_eq_true num_gt_apart);
      apply Number_parts_are_numbers; assumption.
Qed.

Lemma compare_parts_less_trans (lex : bool) (l1 l2 l3 : list string) :
  forallb (isValidPart lex) l1 = true ->
  forallb (isValidPart lex) l2 = true ->
  forallb (isValidPart lex) l3 = true ->
  compare_parts lex l1 l2 = Num (-1) ->
  compare_parts lex l2 l3 = Num (-1) ->
  compare_parts lex l1 l3 = Num (-1).
Proof.
  intros H1 H2 H3. rewrite !compare_parts_scan_rec. destruct lex.
  - apply (scan_rec_less_trans String.eqb str_gt any_string
             str_eq_true str_gt_apart str_gt_trans str_gt_irrefl);
      apply all_strings.
  - apply (scan_rec_less_trans num_eq num_gt is_number
             num_eq_true num_gt_apart num_gt_trans num_gt_irrefl);
      apply Number_parts_are_numbers; assumption.
Qed.

Lemma compare_parts_zero_iff (lex : bool) (l1 l2 : list string) :
  forallb (isValidPart lex) l1 = true ->
  forallb (isValidPart lex) l2 = true ->
  (compare_parts lex l1 l2 = Num 0 <->
   if lex then l1 = l2 else map Number l1 = map Number l2).
Proof.
  intros H1 H2. rewrite compare_parts_scan_rec. destruct lex.
  - apply (scan_rec_zero_iff String.eqb str_gt any_string str_eq_true);
      apply all_strings.
  - apply (scan_rec_zero_iff num_eq num_gt is_number num_eq_true);
      apply Number_parts_are_numbers; assumption.
Qed.

(** On valid operands, by [zeroExtend]: the scan of the parts, both
    sequences extended with ["0"] to the longer length when the flag
    is on. *)
Lemma versionCompare_padded (v1 v2 : string) (options : option Options) :
  valid_version options v1 = true ->
  valid_version options v2 = true ->
  versionCompare v1 v2 options =
  let p1 := split "." v1 in
  let p2 := split "." v2 in
  let n := Nat.max (List.length p1) (List.length p2) in
  if option_flag options zeroExtend
  then compare_parts (option_flag options lexicographical)
         (p1 ++ repeat "0" (n - List.length p1))%list
         (p2 ++ repeat "0" (n - List.length p2))%list
  else compare_parts (option_flag options lexicographical) p1 p2.
Proof.
  intros H1 H2. rewrite (versionCompare_valid _ _ _ H1 H2). cbv zeta.
  destruct (option_flag options zeroExtend); [|reflexivity].
  rewrite length_app, repeat_length.
  f_equal; f_equal; f_equal; lia.
Qed.

Lemma padded_parts_valid (lex : bool) (l : list string) (k : nat) :
  forallb (isValidPart lex) l = true ->
  forallb (isValidPart lex) (l ++ repeat "0" k) = true.
Proof.
  intros H. rewrite forallb_app, H. apply zero_parts_valid.
Qed.

(** [s.split(sep)] has at least one part, splits at every separator,
    and joining the parts with the separator gives the string back. *)
Lemma split_not_nil (sep : ascii) (s : string) : split sep s <> [].
Proof.
  destruct s as [|c r]; simpl; [discriminate|].
  destruct (Ascii.eqb c sep); [discriminate|].
  destruct (split sep r); discriminate.
Qed.

Lemma split_app (sep : ascii) (a b : string) :
  split sep (a ++ String sep b) = (split sep a ++ split sep b)%list.
Proof.
  induction a as [|c r IH]; simpl.
  - rewrite Ascii.eqb_refl. reflexivity.
  - destruct (Ascii.eqb c sep); rewrite IH; [reflexivity|].
    pose proof (split_not_nil sep r) as Hr.
    destruct (split sep r); [contradiction | reflexivity].
Qed.

Lemma concat_cons (sep x y : string) (l : list string) :
  String.concat sep (x :: y :: l) = x ++ sep ++ String.concat sep (y :: l).
Proof. reflexivity. Qed.

Lemma concat_split (sep : ascii) (s : string) :
  String.concat (String sep EmptyString) (split sep s) = s.
Proof.
  induction s as [|c r IH]; [reflexivity|].
  pose proof (split_not_nil sep r) as Hr.
  cbn [split].
  destruct (Ascii.eqb_spec c sep) as [->|_].
  - destruct (split sep r) as [|p ps]; [contradiction|].
    rewrite concat_cons, IH. reflexivity.
  - destruct (split sep r) as [|p ps]; [contradiction|].
    destruct ps as [|p' ps].
    + cbn [String.concat] in *. rewrite IH. reflexivity.
    + rewrite concat_cons in *. rewrite <- IH. reflexivity.
Qed.

Lemma split_injective (sep : ascii) (s1 s2 : string) :
  split sep s1 = split sep s2 -> s1 = s2.
Proof.
  intros H. rewrite <- (concat_split sep s1), <- (concat_split sep s2), H.
  reflexivity.
Qed.

(* ------------------------------------------------------------------ *)
(** ** versionCompare as an order on version strings *)

Lemma versionCompare_operands_exchanged
  (v1 v2 : string) (options : option Options) :
  versionCompare v2 v1 options = opposite (versionCompare v1 v2 options).
Proof.
  destruct (valid_version options v1) eqn:H1.
  - destruct (valid_version options v2) eqn:H2.
    + rewrite (versionCompare_padded _ _ _ H1 H2).
      rewrite (versionCompare_padded _ _ _ H2 H1). cbv zeta.
      rewrite (Nat.max_comm (List.length (split "." v2))).
      destruct (option_flag options zeroExtend).
      * apply compare_parts_swap; apply padded_parts_valid; assumption.
      * apply compare_parts_swap; assumption.
    + rewrite (proj2 (versionCompare_NaN_iff v2 v1 options) (or_introl H2)).
      rewrite (proj2 (versionCompare_NaN_iff v1 v2 options) (or_intror H2)).
      reflexivity.
  - rewrite (proj2 (versionCompare_NaN_iff v2 v1 options) (or_intror H1)).
    rewrite (proj2 (versionCompare_NaN_iff v1 v2 options) (or_introl H1)).
    reflexivity.
Qed.

(** X1.  Exchanging the operands reverses the answer: 1 becomes -1,
    -1 becomes 1, and 0 and [NaN] stay, under every setting of the
    options and for every pair of strings. *)
Theorem versionCompare_swap (v1 v2 : string) (options : option Options) :
  versionCompare v2 v1 options = opposite (versionCompare v1 v2 options)
  /\ (versionCompare v1 v2 options = Num 1
      <-> versionCompare v2 v1 options = Num (-1)).
Proof.
  pose proof (versionCompare_operands_exchanged v1 v2 options) as E.
  split; [exact E|]. rewrite E.
  destruct (versionCompare v1 v2 options) as [|z|]; simpl;
    split; intros H; try discriminate H; inversion H; f_equal; lia.
Qed.

Lemma answer_means_valid
  (v1 v2 : string) (options : option Options) (z : Z) :
  versionCompare v1 v2 options = Num z ->
  valid_version options v1 = true /\ valid_version options v2 = true.
Proof.
  intros H.
  destruct (valid_version options v1) eqn:H1;
    [destruct (valid_version options v2) eqn:H2; [split; reflexivity|]|].
  - rewrite (proj2 (versionCompare_NaN_iff v1 v2 options) (or_intror H2))
      in H. discriminate H.
  - rewrite (proj2 (versionCompare_NaN_iff v1 v2 options) (or_introl H1))
      in H. discriminate H.
Qed.

(** X2.  The comparison answers -1, 0 or 1 exactly when every part of
    both operands passes the pattern of the mode. *)
Theorem versionCompare_defined_iff_valid
  (v1 v2 : string) (options : option Options) :
  (versionCompare v1 v2 options = Num (-1)
   \/ versionCompare v1 v2 options = Num 0
   \/ versionCompare v1 v2 options = Num 1)
  <-> valid_version options v1 = true /\ valid_version options v2 = true.
Proof.
  split.
  - intros [H|[H|H]]; exact (answer_means_valid _ _ _ _ H).
  - intros [H1 H2].
    destruct (versionCompare_range v1 v2 options) as [E|E]; [|exact E].
    apply versionCompare_NaN_iff in E. destruct E; congruence.
Qed.

Lemma empty_part_invalid (lex : bool) (l : list string) :
  In EmptyString l -> forallb (isValidPart lex) l = false.
Proof.
  intros Hin. apply not_true_is_false. intros Hall.
  rewrite forallb_forall in Hall. apply Hall in Hin.
  destruct lex; discriminate.
Qed.

Lemma empty_part_NaN (v w : string) (options : option Options) :
  In EmptyString (split "." v) ->
  versionCompare v w options = NaN /\ versionCompare w v options = NaN.
Proof.
  intros Hin.
  assert (Hv : valid_version options v = false)
    by (apply empty_part_invalid; exact Hin).
  split; apply versionCompare_NaN_iff; [left | right]; exact Hv.
Qed.

Lemma empty_part_forms (a b : string) :
  In EmptyString (split "." EmptyString)
  /\ In EmptyString (split "." (a ++ "."))
  /\ In EmptyString (split "." ("." ++ b))
  /\ In EmptyString (split "." (a ++ ".." ++ b)).
Proof.
  split; [left; reflexivity|].
  split; [rewrite split_app; apply in_or_app; right; left; reflexivity|].
  split; [left; reflexivity|].
  cbn [append]. rewrite split_app. apply in_or_app. right. left. reflexivity.
Qed.

(** X3.  A version string with an empty part (the empty string, one
    that ends or starts with a dot, one with two dots in a row) makes
    the comparison answer [NaN], on either side, against every other
    operand and under every setting of the options. *)
Theorem versionCompare_empty_part
  (a b w : string) (options : option Options) :
  (versionCompare EmptyString w options = NaN
   /\ versionCompare w EmptyString options = NaN)
  /\ (versionCompare (a ++ ".") w options = NaN
      /\ versionCompare w (a ++ ".") options = NaN)
  /\ (versionCompare ("." ++ b) w options = NaN
      /\ versionCompare w ("." ++ b) options = NaN)
  /\ (versionCompare (a ++ ".." ++ b) w options = NaN
      /\ versionCompare w (a ++ ".." ++ b) options = NaN).
Proof.
  destruct (empty_part_forms a b) as [F1 [F2 [F3 F4]]].
  split; [exact (empty_part_NaN _ w options F1)|].
  split; [exact (empty_part_NaN _ w options F2)|].
  split; [exact (empty_part_NaN _ w options F3)|].
  exact (empty_part_NaN _ w options F4).
Qed.

(** X4.  Without [zeroExtend], "less" is transitive: when the first
    version compares -1 with the second and the second -1 with the
    third, the first compares -1 with the third, in both modes. *)
Theorem versionCompare_less_trans
  (v1 v2 v3 : string) (options : option Options) :
  option_flag options zeroExtend = false ->
  versionCompare v1 v2 options = Num (-1) ->
  versionCompare v2 v3 options = Num (-1) ->
  versionCompare v1 v3 options = Num (-1).
Proof.
  intros Hz H12 H23.
  destruct (answer_means_valid _ _ _ _ H12) as [H1 H2].
  destruct (answer_means_valid _ _ _ _ H23) as [_ H3].
  rewrite (versionCompare_padded _ _ _ H1 H2) in H12.
  rewrite (versionCompare_padded _ _ _ H2 H3) in H23.
  rewrite (versionCompare_padded _ _ _ H1 H3).
  cbv zeta in *. rewrite Hz in *.
  exact (compare_parts_less_trans _ _ _ _ H1 H2 H3 H12 H23).
Qed.

Lemma versionCompare_less_trans_example :
  (option_flag None zeroExtend = false
   /\ versionCompare "1.7.9" "1.8" None = Num (-1)
   /\ versionCompare "1.8" "1.8.1" None = Num (-1))
  /\ versionCompare "1.7.9" "1.8.1" None = Num (-1).
Proof.
  split; [repeat split|].
  apply (versionCompare_less_trans "1.7.9" "1.8" "1.8.1" None);
    reflexivity.
Defined.

(** X5.  Without [zeroExtend], two versions compare 0 exactly when
    both are valid and, in the lexicographical mode, they are the
    same string, or, in the numeric mode, their parts convert to the
    same sequence of numbers. *)
Theorem versionCompare_equal_iff
  (v1 v2 : string) (options : option Options) :
  option_flag options zeroExtend = false ->
  (versionCompare v1 v2 options = Num 0 <->
   valid_version options v1 = true /\ valid_version options v2 = true
   /\ if option_flag options lexicographical
      then v1 = v2
      else map Number (split "." v1) = map Number (split "." v2)).
Proof.
  intros Hz. split.
  - intros H.
    destruct (answer_means_valid _ _ _ _ H) as [H1 H2].
    split; [exact H1 | split; [exact H2|]].
    rewrite (versionCompare_padded _ _ _ H1 H2) in H.
    cbv zeta in H. rewrite Hz in H.
    apply (compare_parts_zero_iff _ _ _ H1 H2) in H.
    destruct (option_flag options lexicographical); [|exact H].
    apply (split_injective "."). exact H.
  - intros [H1 [H2 H]].
    rewrite (versionCompare_padded _ _ _ H1 H2). cbv zeta. rewrite Hz.
    apply (compare_parts_zero_iff _ _ _ H1 H2).
    destruct (option_flag options lexicographical); [|exact H].
    rewrite H. reflexivity.
Qed.

Lemma versionCompare_equal_iff_example :
  option_flag None zeroExtend = false
  /\ versionCompare "1.08" "1.8" None = Num 0
  /\ versionCompare "1.08" "1.8" (Some (mkOptions true false)) <> Num 0.
Proof.
  split; [reflexivity|]. split.
  - apply (proj2 (versionCompare_equal_iff "1.08" "1.8" None eq_refl)).
    repeat split.
  - intros H.
    apply (proj1 (versionCompare_equal_iff "1.08" "1.8"
                    (Some (mkOptions true false)) eq_refl)) in H.
    destruct H as [_ [_ H]]. simpl in H. discriminate H.
Defined.

Lemma scan_rec_common_prefix {A : Type} (eq_js gt_js : A -> A -> bool)
  (pre l1 l2 : list A) :
  self_equal eq_js pre ->
  scan_rec eq_js gt_js (pre ++ l1) (pre ++ l2) = scan_rec eq_js gt_js l1 l2.
Proof.
  induction pre as [|a r IH]; intros Hp; simpl; [reflexivity|].
  rewrite (Hp a (or_introl eq_refl)).
  apply IH. intros x Hx. apply Hp. right. exact Hx.
Qed.

Lemma Number_exact (x : string) :
  test_digits x = true -> decimal_value 0 x < 2 ^ 53 ->
  Number x = Num (decimal_value 0 x).
Proof.
  intros Hx Hsmall. unfold Number, round_to_double. rewrite Hx.
  destruct (Z.ltb_spec (decimal_value 0 x) (2 ^ 53)); [reflexivity | lia].
Qed.

Lemma last_string_parts (x y : string) :
  scan_rec String.eqb str_gt [x] [y] = sign_of (String.compare x y).
Proof.
  simpl. unfold str_gt, String.ltb.
  rewrite (String.compare_antisym x y).
  destruct (String.eqb_spec x y) as [->|N].
  - rewrite string_compare_refl. reflexivity.
  - destruct (String.compare y x) eqn:E; try reflexivity.
    apply String.compare_eq_iff in E. congruence.
Qed.

Lemma last_number_parts (a b : Z) :
  scan_rec num_eq num_gt [Num a] [Num b] = sign_of (a ?= b).
Proof.
  simpl.
  destruct (Z.compare_spec a b) as [->|L|G].
  - rewrite Z.eqb_refl. reflexivity.
  - destruct (Z.eqb_spec a b); [lia|].
    destruct (Z.ltb_spec b a); [lia | reflexivity].
  - destruct (Z.eqb_spec a b); [lia|].
    destruct (Z.ltb_spec b a); [reflexivity | lia].
Qed.

(** X6.  Two valid versions with the same parts up to the last one
    are ordered by that last part: by the order of its code units in
    the lexicographical mode, and by its decimal value in the numeric
    mode (for values below 2^53, which convert exactly). *)
Theorem versionCompare_last_part
  (v1 v2 : string) (options : option Options)
  (pre : list string) (x y : string) :
  valid_version options v1 = true ->
  valid_version options v2 = true ->
  split "." v1 = (pre ++ [x])%list ->
  split "." v2 = (pre ++ [y])%list ->
  (option_flag options lexicographical = true ->
   versionCompare v1 v2 options = sign_of (String.compare x y))
  /\ (option_flag options lexicographical = false ->
      decimal_value 0 x < 2 ^ 53 -> decimal_value 0 y < 2 ^ 53 ->
      versionCompare v1 v2 options
      = sign_of (decimal_value 0 x ?= decimal_value 0 y)).
Proof.
  intros H1 H2 S1 S2.
  assert (E : versionCompare v1 v2 options
              = compare_parts (option_flag options lexicographical)
                  (pre ++ [x]) (pre ++ [y])).
  { rewrite (versionCompare_padded _ _ _ H1 H2). cbv zeta.
    rewrite S1, S2, !length_app. cbn [List.length].
    rewrite Nat.max_id, Nat.sub_diag. cbn [repeat]. rewrite !app_nil_r.
    destruct (option_flag options zeroExtend); reflexivity. }
  unfold valid_version in H1, H2. rewrite S1 in H1. rewrite S2 in H2.
  rewrite forallb_app in H1, H2.
  apply andb_true_iff in H1, H2.
  destruct H1 as [Hpre Hx], H2 as [_ Hy].
  cbn [forallb] in Hx, Hy. rewrite andb_true_r in Hx, Hy.
  rewrite E, compare_parts_scan_rec. split; intros Hlex; rewrite Hlex in *.
  - rewrite scan_rec_common_prefix by apply string_parts_self_equal.
    apply last_string_parts.
  - intros Sx Sy. rewrite !map_app. cbn [map].
    rewrite scan_rec_common_prefix
      by (apply Number_parts_self_equal; exact Hpre).
    cbn [isValidPart] in Hx, Hy.
    rewrite (Number_exact x Hx Sx), (Number_exact y Hy Sy).
    apply last_number_parts.
Qed.

Lemma versionCompare_last_part_example :
  versionCompare "1.10" "1.9" None = Num 1
  /\ versionCompare "1.10" "1.9" (Some (mkOptions true false)) = Num (-1).
Proof.
  split.
  - apply (proj2 (versionCompare_last_part "1.10" "1.9" None ["1"] "10" "9"
                    eq_refl eq_refl eq_refl eq_refl));
      reflexivity.
  - apply (proj1 (versionCompare_last_part "1.10" "1.9"
                    (Some (mkOptions true false)) ["1"] "10" "9"
                    eq_refl eq_refl eq_refl eq_refl)).
    reflexivity.
Defined.

(* ------------------------------------------------------------------ *)
(** ** The check at login *)

(** X7.  A host version with a part that is not all digits (a release
    candidate or development suffix, an empty part) never raises the
    notice: the login leaves the page as it was. *)
Theorem invalid_host_version_is_not_reported (version : string) (p : page) :
  valid_version None version = false ->
  onUserLoggedIn version p = p.
Proof.
  intros Hv. unfold onUserLoggedIn, performCheck.
  rewrite (proj2 (versionCompare_NaN_iff version "1.8" None) (or_introl Hv)).
  reflexivity.
Qed.

Lemma invalid_host_version_is_not_reported_example :
  valid_version None "1.7.0rc1" = false
  /\ onUserLoggedIn "1.7.0rc1" (mkPage KarmenViewModel [])
     = mkPage KarmenViewModel [].
Proof.
  split; [reflexivity|].
  apply (invalid_host_version_is_not_reported "1.7.0rc1"). reflexivity.
Defined.

Lemma Number_one_eight : Number "1" = Num 1 /\ Number "8" = Num 8.
Proof. split; vm_compute; reflexivity. Qed.

(** X8.  For a valid host version the notice is raised exactly when
    the first part is a number below 1, or the first part is 1 and the
    second part is missing or a number below 8; later parts play no
    role. *)
Theorem notice_decided_by_major_and_minor (version : string) (p : page) :
  valid_version None version = true ->
  (notices (onUserLoggedIn version p)
   = (notices p ++ [unsupported_notice version])%list
   <->
   match map Number (split "." version) with
   | [] => False
   | major :: rest =>
       num_lt major (Num 1) = true
       \/ (major = Num 1
           /\ match rest with
              | [] => True
              | minor :: _ => num_lt minor (Num 8) = true
              end)
   end).
Proof.
  intros Hv.
  assert (Hlt : notices (onUserLoggedIn version p)
                = (notices p ++ [unsupported_notice version])%list
                <-> versionCompare version "1.8" None = Num (-1)).
  { unfold onUserLoggedIn, performCheck.
    destruct (num_lt (versionCompare version "1.8" None) (Num 0)) eqn:E.
    - apply below_zero_iff_less in E. simpl. split; intros _; auto.
    - split; intros H.
      + exfalso. symmetry in H. exact (app_one_neq _ _ H).
      + apply below_zero_iff_less in H. congruence. }
  rewrite Hlt.
  rewrite (versionCompare_valid version "1.8" None Hv eq_refl).
  cbv zeta. cbn [option_flag]. rewrite compare_parts_scan_rec.
  change (split "." "1.8") with ["1"; "8"]. cbn [map].
  destruct Number_one_eight as [-> ->].
  pose proof (Number_parts_are_numbers _ Hv) as Hnum.
  pose proof (split_not_nil "." version) as Hne.
  destruct (split "." version) as [|x xs]; [contradiction Hne; reflexivity|].
  cbn [map] in *.
  generalize dependent (map Number xs). generalize dependent (Number x).
  intros major rest Hnum.
  inversion Hnum as [|? ? Hmajor Hrest]; subst.
  destruct major as [|z|]; [contradiction Hmajor; reflexivity| |].
  - destruct rest as [|minor rest'].
    + simpl.
      destruct (Z.eqb_spec z 1), (Z.ltb_spec 1 z), (Z.ltb_spec z 1);
        decide_notice.
    + inversion Hrest as [|? ? Hminor _]; subst.
      destruct minor as [|m|]; [contradiction Hminor; reflexivity| |].
      * destruct rest'; simpl;
          destruct (Z.eqb_spec z 1), (Z.ltb_spec 1 z), (Z.ltb_spec z 1),
            (Z.eqb_spec m 8), (Z.ltb_spec 8 m), (Z.ltb_spec m 8);
          decide_notice.
      * simpl.
        destruct (Z.eqb_spec z 1), (Z.ltb_spec 1 z), (Z.ltb_spec z 1);
          decide_notice.
  - simpl. decide_notice.
Qed.

Lemma notice_decided_by_major_and_minor_example :
  valid_version None "1" = true
  /\ notices (onUserLoggedIn "1" (mkPage KarmenViewModel []))
     = [unsupported_notice "1"].
Proof.
  split; [reflexivity|].
  apply (proj2 (notice_decided_by_major_and_minor "1"
                  (mkPage KarmenViewModel []) eq_refl)).
  right. split; [reflexivity | exact I].
Defined.

Lemma login_when_less (version : string) (p : page) :
  versionCompare version "1.8" None = Num (-1) ->
  onUserLoggedIn version p
  = mkPage (Self.set_notify (Some (unsupported_notice version)) (self p))
           (notices p ++ [unsupported_notice version]).
Proof.
  intros H. unfold onUserLoggedIn, performCheck. rewrite H. reflexivity.
Qed.

(** X9.  The check keeps no record of having warned: with a host
    version that compares -1, [k] logins add [k] copies of the notice
    to the page, [self.notify] holds the notice after the first of
    them, and the three observables are never written. *)
Theorem repeated_logins_repeat_notice (k : nat) :
  forall (version : string) (p : page),
  versionCompare version "1.8" None = Num (-1) ->
  notices (logins k version p)
  = (notices p ++ repeat (unsupported_notice version) k)%list
  /\ (k <> O ->
      Self.notify (self (logins k version p))
      = Some (unsupported_notice version))
  /\ Self.connectionStatus (self (logins k version p))
     = Self.connectionStatus (self p)
  /\ Self.iconTitle (self (logins k version p)) = Self.iconTitle (self p)
  /\ Self.connectionStatusDescription (self (logins k version p))
     = Self.connectionStatusDescription (self p).
Proof.
  induction k as [|k IH]; intros version p Hless.
  - simpl. rewrite app_nil_r. repeat split. intros H. contradiction H.
    reflexivity.
  - cbn [logins]. rewrite (login_when_less version p Hless).
    destruct (IH version
                (mkPage (Self.set_notify (Some (unsupported_notice version))
                           (self p))
                        (notices p ++ [unsupported_notice version]))
                Hless)
      as [Hn [Hs [Hc [Ht Hd]]]].
    rewrite Hn, Hc, Ht, Hd. cbn [notices self repeat].
    rewrite <- app_assoc. repeat split.
    intros _. destruct k as [|k']; [reflexivity|].
    apply Hs. discriminate.
Qed.

Lemma repeated_logins_repeat_notice_example :
  versionCompare "1.7.9" "1.8" None = Num (-1)
  /\ notices (logins 2 "1.7.9" (mkPage KarmenViewModel []))
     = [unsupported_notice "1.7.9"; unsupported_notice "1.7.9"].
Proof.
  split; [reflexivity|].
  exact (proj1 (repeated_logins_repeat_notice 2 "1.7.9"
                  (mkPage KarmenViewModel []) eq_refl)).
Defined.

(* ------------------------------------------------------------------ *)
(** ** The handler over a run of messages *)

(** What a message does to the view model: each observable is either
    written with a text fixed by the message or left alone, and
    [self.notify] is left alone. *)
Lemma handler_writes (plugin : string) (data : Data.t) :
  exists c t d : option string,
  forall self : Self.t,
    onDataUpdaterPluginMessage plugin data self
    = Self.mk (written c (Self.connectionStatus self))
              (written t (Self.iconTitle self))
              (written d (Self.connectionStatusDescription self))
              (Self.notify self).
Proof.
  unfold onDataUpdaterPluginMessage.
  destruct (negb (String.eqb plugin "karmen"));
    [exists None, None, None; intros []; reflexivity|].
  destruct (truthy (Data.connectionStatus data));
    [|exists None, None, None; intros []; reflexivity].
  cbv zeta.
  destruct (loose_eq_word (Data.connectionStatus data) "connected");
    [eexists (Some _), (Some _), (Some _); intros []; reflexivity|].
  destruct (loose_eq_word (Data.connectionStatus data) "connecting");
    [eexists (Some _), (Some _), (Some _); intros []; reflexivity|].
  destruct (loose_eq_word (Data.connectionStatus data) "disconnecting");
    [eexists (Some _), (Some _), (Some _); intros []; reflexivity|].
  destruct (loose_eq_word (Data.connectionStatus data) "disconnected");
    [|eexists (Some _), (Some _), None; intros []; reflexivity].
  destruct (truthy (Data.error data));
    eexists (Some _), (Some _), (Some _); intros []; reflexivity.
Qed.

(** X10.  Delivering the same message twice in a row leaves the view
    model as delivering it once does. *)
Theorem handler_idempotent
  (plugin : string) (data : Data.t) (self : Self.t) :
  onDataUpdaterPluginMessage plugin data
    (onDataUpdaterPluginMessage plugin data self)
  = onDataUpdaterPluginMessage plugin data self.
Proof.
  destruct (handler_writes plugin data) as [c [t [d H]]].
  rewrite !H. destruct c, t, d; reflexivity.
Qed.

(** X11.  The handler and the check work on separate state: a push
    message and a login commute, the handler never writes
    [self.notify] and raises no notice. *)
Theorem push_message_commutes_with_login
  (plugin : string) (data : Data.t) (version : string) (p : page) :
  push_message plugin data (onUserLoggedIn version p)
  = onUserLoggedIn version (push_message plugin data p)
  /\ Self.notify (self (push_message plugin data p)) = Self.notify (self p)
  /\ notices (push_message plugin data p) = notices p.
Proof.
  destruct (handler_writes plugin data) as [c [t [d H]]].
  unfold push_message, onUserLoggedIn, performCheck.
  destruct (num_lt (versionCompare version "1.8" None) (Num 0));
    cbn [self notices]; rewrite !H; repeat split.
Qed.

Lemma recognized_cases (status : jsval) :
  recognized status = true ->
  status = JStr "connected" \/ status = JStr "connecting"
  \/ status = JStr "disconnecting" \/ status = JStr "disconnected".
Proof.
  unfold recognized. intros H.
  destruct status as [| |b|z|s]; try discriminate H.
  cbn [loose_eq_word] in H.
  repeat (apply orb_true_iff in H; destruct H as [H|H]);
    apply String.eqb_eq in H; subst; auto.
Qed.

Lemma deliver_app (m1 m2 : list (string * Data.t)) (self : Self.t) :
  deliver (m1 ++ m2) self = deliver m2 (deliver m1 self).
Proof.
  unfold deliver. apply fold_left_app.
Qed.

(** X12.  After a message of this plugin with one of the four
    recognized statuses, the three observables are fixed by that
    message alone: whatever messages came before, they are what the
    message leaves on a freshly constructed view model. *)
Theorem last_recognized_message_decides
  (history : list (string * Data.t)) (data : Data.t) (self : Self.t) :
  recognized (Data.connectionStatus data) = true ->
  Self.connectionStatus (deliver (history ++ [("karmen", data)]) self)
  = Self.connectionStatus
      (onDataUpdaterPluginMessage "karmen" data KarmenViewModel)
  /\ Self.iconTitle (deliver (history ++ [("karmen", data)]) self)
     = Self.iconTitle
         (onDataUpdaterPluginMessage "karmen" data KarmenViewModel)
  /\ Self.connectionStatusDescription
       (deliver (history ++ [("karmen", data)]) self)
     = Self.connectionStatusDescription
         (onDataUpdaterPluginMessage "karmen" data KarmenViewModel).
Proof.
  intros Hr. rewrite deliver_app.
  generalize (deliver history self). intros before.
  unfold deliver. cbn [fold_left fst snd].
  destruct data as [status error advise]. cbn [Data.connectionStatus] in Hr.
  destruct (recognized_cases status Hr) as [->|[->|[->| ->]]].
  - rewrite !handler_connected. repeat split.
  - rewrite !handler_connecting. repeat split.
  - rewrite !handler_disconnecting. repeat split.
  - rewrite !handler_disconnected. destruct (truthy error); repeat split.
Qed.

Lemma last_recognized_message_decides_example :
  recognized (JStr "connected") = true
  /\ Self.connectionStatusDescription
       (deliver [("karmen",
                  Data.mk (JStr "disconnected") (JStr "timeout")
                          (JStr "check network"));
                 ("karmen", Data.mk (JStr "connected") JUndefined JUndefined)]
                KarmenViewModel)
     = "Click the icon to go to see your printer in Karmen Cloud.".
Proof.
  split; [reflexivity|].
  exact (proj2 (proj2
    (last_recognized_message_decides
       [("karmen", Data.mk (JStr "disconnected") (JStr "timeout")
                           (JStr "check network"))]
       (Data.mk (JStr "connected") JUndefined JUndefined)
       KarmenViewModel eq_refl))).
Defined.

Lemma handler_class_cases
  (plugin : string) (data : Data.t) (self : Self.t) :
  Self.connectionStatus (onDataUpdaterPluginMessage plugin data self)
  = Self.connectionStatus self
  \/ exists text : string,
       Self.connectionStatus (onDataUpdaterPluginMessage plugin data self)
       = "karmen-status-" ++ text.
Proof.
  unfold onDataUpdaterPluginMessage.
  destruct (negb (String.eqb plugin "karmen")); [left; reflexivity|].
  destruct (truthy (Data.connectionStatus data)); [|left; reflexivity].
  right. exists (to_string (Data.connectionStatus data)). cbv zeta.
  repeat match goal with
         | |- context [if loose_eq_word ?v ?w then _ else _] =>
             destruct (loose_eq_word v w)
         | |- context [if truthy ?v then _ else _] => destruct (truthy v)
         end;
    reflexivity.
Qed.

(** X13.  Whatever messages arrive after the view model is
    constructed, the class observable always starts with
    ["karmen-status-"]. *)
Theorem class_always_karmen_status (messages : list (string * Data.t)) :
  String.prefix "karmen-status-"
    (Self.connectionStatus (deliver messages KarmenViewModel)) = true.
Proof.
  assert (Hgen : forall self,
             String.prefix "karmen-status-" (Self.connectionStatus self) = true ->
             String.prefix "karmen-status-"
               (Self.connectionStatus (deliver messages self)) = true).
  { induction messages as [|[plugin data] rest IH]; intros self Hs.
    - exact Hs.
    - change (deliver ((plugin, data) :: rest) self)
        with (deliver rest (onDataUpdaterPluginMessage plugin data self)).
      apply IH.
      destruct (handler_class_cases plugin data self) as [E|[text E]];
        rewrite E.
      + exact Hs.
      + apply prefix_app. }
  apply Hgen. reflexivity.
Qed.

(* ------------------------------------------------------------------ *)
(** ** Trailing zero parts and the two patterns *)

Lemma scan_rec_same_last {A : Type} (eq_js gt_js : A -> A -> bool)
  (z : A) (l1 : list A) :
  eq_js z z = true ->
  forall l2, List.length l1 = List.length l2 ->
  scan_rec eq_js gt_js (l1 ++ [z]) (l2 ++ [z]) = scan_rec eq_js gt_js l1 l2.
Proof.
  intros Hz. induction l1 as [|a r1 IH]; intros [|b r2] Hlen;
    try discriminate Hlen; simpl.
  - rewrite Hz. reflexivity.
  - destruct (eq_js a b); [|reflexivity].
    apply IH. simpl in Hlen. lia.
Qed.

Lemma compare_parts_same_last (lex : bool) (l1 l2 : list string) :
  List.length l1 = List.length l2 ->
  compare_parts lex (l1 ++ ["0"]) (l2 ++ ["0"]) = compare_parts lex l1 l2.
Proof.
  intros Hlen. rewrite !compare_parts_scan_rec. destruct lex.
  - apply scan_rec_same_last; [reflexivity | exact Hlen].
  - rewrite !map_app. cbn [map].
    apply scan_rec_same_last; [|rewrite !length_map; exact Hlen].
    apply Number_eq_self. reflexivity.
Qed.

Lemma repeat_snoc (k : nat) :
  repeat "0" (S k) = (repeat "0" k ++ ["0"])%list.
Proof.
  cbn [repeat]. apply repeat_cons.
Qed.

Lemma trailing_zero_on_the_left
  (v1 v2 : string) (options : option Options) :
  option_flag options zeroExtend = true ->
  versionCompare (v1 ++ ".0") v2 options = versionCompare v1 v2 options.
Proof.
  intros Hz.
  assert (Hs : split "." (v1 ++ ".0") = (split "." v1 ++ ["0"])%list)
    by (exact (split_app "." v1 "0")).
  assert (Hvalid : valid_version options (v1 ++ ".0")
                   = valid_version options v1).
  { unfold valid_version. rewrite Hs, forallb_app.
    destruct (option_flag options lexicographical);
      cbn [forallb isValidPart]; simpl; apply andb_true_r. }
  destruct (valid_version options v1) eqn:H1.
  - destruct (valid_version options v2) eqn:H2.
    + rewrite (versionCompare_padded _ _ _ Hvalid H2).
      rewrite (versionCompare_padded _ _ _ H1 H2). cbv zeta.
      rewrite Hz, Hs, length_app. cbn [List.length].
      set (p1 := split "." v1). set (p2 := split "." v2).
      destruct (Nat.lt_ge_cases (List.length p1) (List.length p2)) as [L|G].
      * replace (Nat.max (List.length p1 + 1) (List.length p2))
          with (List.length p2) by lia.
        replace (Nat.max (List.length p1) (List.length p2))
          with (List.length p2) by lia.
        replace (List.length p2 - List.length p1)%nat
          with (S (List.length p2 - (List.length p1 + 1))) by lia.
        cbn [repeat]. rewrite <- app_assoc. reflexivity.
      * replace (Nat.max (List.length p1 + 1) (List.length p2))
          with (List.length p1 + 1)%nat by lia.
        replace (Nat.max (List.length p1) (List.length p2))
          with (List.length p1) by lia.
        replace (List.length p1 + 1 - (List.length p1 + 1))%nat
          with O by lia.
        replace (List.length p1 + 1 - List.length p2)%nat
          with (S (List.length p1 - List.length p2)) by lia.
        rewrite Nat.sub_diag, repeat_snoc. cbn [repeat].
        rewrite !app_nil_r, app_assoc.
        apply compare_parts_same_last.
        rewrite length_app, repeat_length. lia.
    + rewrite (proj2 (versionCompare_NaN_iff _ v2 options) (or_intror H2)).
      rewrite (proj2 (versionCompare_NaN_iff v1 v2 options) (or_intror H2)).
      reflexivity.
  - rewrite (proj2 (versionCompare_NaN_iff _ v2 options) (or_introl Hvalid)).
    rewrite (proj2 (versionCompare_NaN_iff v1 v2 options) (or_introl H1)).
    reflexivity.
Qed.

(** X14.  With [zeroExtend] on, a further [".0"] at the end of either
    operand never changes the answer, in both modes. *)
Theorem versionCompare_zeroExtend_trailing_zero
  (v1 v2 : string) (options : option Options) :
  option_flag options zeroExtend = true ->
  versionCompare (v1 ++ ".0") v2 options = versionCompare v1 v2 options
  /\ versionCompare v1 (v2 ++ ".0") options = versionCompare v1 v2 options.
Proof.
  intros Hz. split; [exact (trailing_zero_on_the_left v1 v2 options Hz)|].
  rewrite (versionCompare_operands_exchanged (v2 ++ ".0") v1 options).
  rewrite (trailing_zero_on_the_left v2 v1 options Hz).
  symmetry. apply versionCompare_operands_exchanged.
Qed.

Lemma versionCompare_zeroExtend_trailing_zero_example :
  option_flag (Some (mkOptions false true)) zeroExtend = true
  /\ versionCompare "1.7.0" "1.8" (Some (mkOptions false true))
     = versionCompare "1.7" "1.8" (Some (mkOptions false true))
  /\ versionCompare "1.7" "1.8.0" (Some (mkOptions false true))
     = versionCompare "1.7" "1.8" (Some (mkOptions false true)).
Proof.
  split; [reflexivity|].
  exact (versionCompare_zeroExtend_trailing_zero "1.7" "1.8"
           (Some (mkOptions false true)) eq_refl).
Defined.

Lemma skip_all (p : ascii -> bool) (s : string) :
  all_chars p s = true -> skip_chars p s = EmptyString.
Proof.
  induction s as [|c r IH]; simpl; [reflexivity|].
  intros H. apply andb_true_iff in H. destruct H as [Hc Hr].
  rewrite Hc. apply IH. exact Hr.
Qed.

Lemma digits_pass_both_patterns (x : string) :
  test_digits x = true -> test_digits_letters x = true.
Proof.
  destruct x as [|c r]; simpl; [discriminate|].
  intros H. apply andb_true_iff in H. destruct H as [Hc Hr].
  rewrite Hc, (skip_all is_digit r Hr). reflexivity.
Qed.

(** X15.  The lexicographical pattern accepts every part the numeric
    pattern accepts: operands that compare to a number in the default
    mode never compare to [NaN] in the lexicographical mode. *)
Theorem numeric_valid_is_lexicographical_valid
  (v1 v2 : string) (ze : bool) :
  versionCompare v1 v2 (Some (mkOptions false ze)) <> NaN ->
  versionCompare v1 v2 (Some (mkOptions true ze)) <> NaN.
Proof.
  intros Hnum Hlex. apply Hnum.
  apply versionCompare_NaN_iff. apply versionCompare_NaN_iff in Hlex.
  unfold valid_version in *. cbn [option_flag lexicographical] in *.
  assert (Hmono : forall l,
             forallb (isValidPart true) l = false ->
             forallb (isValidPart false) l = false).
  { intros l H. apply not_true_is_false. intros T.
    rewrite forallb_forall in T.
    assert (forallb (isValidPart true) l = true); [|congruence].
    apply forallb_forall. intros x Hx.
    apply digits_pass_both_patterns. exact (T x Hx). }
  destruct Hlex as [H|H]; [left | right]; apply Hmono; exact H.
Qed.

Lemma numeric_valid_is_lexicographical_valid_example :
  versionCompare "1.7.9" "1.8" (Some (mkOptions false false)) <> NaN
  /\ versionCompare "1.7.9" "1.8" (Some (mkOptions true false)) <> NaN.
Proof.
  assert (H : versionCompare "1.7.9" "1.8" (Some (mkOptions false false))
              <> NaN) by (vm_compute; discriminate).
  split; [exact H|].
  exact (numeric_valid_is_lexicographical_valid "1.7.9" "1.8" false H).
Defined.
